(** * pyjamaz: the Python binding layer ([bindings/python/pyjamaz/__init__.py])

    A shallow embedding of [optimize_image], the only function of the binding
    with behaviour of its own.  The function validates its arguments, reads the
    input, marshals a request struct, calls the native engine once and copies
    the result struct into a Python value before releasing it.

    Python values are modelled as follows:
    - [int] is [Z] (unbounded); ctypes integer fields wrap modulo their width;
    - [float] is an IEEE-754 binary64 value, [spec_float] of the Standard
      Library, compared with [SFltb] / [SFeqb];
    - [bytes] is [list byte];
    - [str] is a list of Unicode code points, with the strict UTF-8 codec;
    - exceptions, the file system, the native heap and the order of the
      external calls are threaded through a state-and-exception monad.

    The native engine is a parameter: a function from the request struct to a
    result struct or NULL.  The file system maps a path to a regular readable
    file (its reported size and its contents) or to nothing; directories,
    permissions and changes between two calls are outside the model, and so
    is memory exhaustion.  Library discovery, [get_version], [cleanup] and
    [OptimizeResult.save] are not modelled. *)

From Stdlib Require Import ZArith NArith List String Ascii Bool Lia.
From Stdlib Require Import Strings.Byte.
From Stdlib Require Import Floats.SpecFloat.
Import ListNotations.

Open Scope Z_scope.

(** ** Bytes and strings *)

Definition bytes := list byte.

(** A code point; Python's [str] is a sequence of them (lone surrogates
    included, which is why encoding can fail). *)
Definition codepoint := N.
Definition str := list codepoint.

(** A Python string literal whose characters are all below 256. *)
Fixpoint lit (s : string) : str :=
  match s with
  | EmptyString => []
  | String c r => N_of_ascii c :: lit r
  end.

Definition str_eqb (a b : str) : bool :=
  if list_eq_dec N.eq_dec a b then true else false.

(** [sep.join(parts)] *)
Fixpoint join (sep : str) (parts : list str) : str :=
  match parts with
  | [] => []
  | [p] => p
  | p :: rest => p ++ sep ++ join sep rest
  end.

Module Utf8.

Definition byte_of_N (n : N) : byte :=
  match Byte.of_N n with Some b => b | None => x00 end.

Definition is_surrogate (c : N) : bool :=
  ((55296 <=? c) && (c <=? 57343))%N.

(** [chr(c).encode('utf-8')]: [None] stands for UnicodeEncodeError. *)
Definition encode_cp (c : codepoint) : option (list N) :=
  (if c <? 128 then Some [c]
   else if c <? 2048 then Some [192 + c / 64; 128 + c mod 64]
   else if c <? 65536 then
     if is_surrogate c then None
     else Some [224 + c / 4096; 128 + (c / 64) mod 64; 128 + c mod 64]
   else if c <? 1114112 then
     Some [240 + c / 262144; 128 + (c / 4096) mod 64;
           128 + (c / 64) mod 64; 128 + c mod 64]
   else None)%N.

Fixpoint encode (s : str) : option bytes :=
  match s with
  | [] => Some []
  | c :: r =>
      match encode_cp c, encode r with
      | Some bs, Some rest => Some (map byte_of_N bs ++ rest)
      | _, _ => None
      end
  end.

(** The payload of a continuation byte [10xxxxxx]. *)
Definition cont (b : byte) : option N :=
  let n := Byte.to_N b in
  (if (128 <=? n) && (n <=? 191) then Some (n - 128) else None)%N.

Definition push (c : codepoint) (r : option str) : option str :=
  match r with Some s => Some (c :: s) | None => None end.

(** [b.decode('utf-8')] in strict mode: [None] stands for
    UnicodeDecodeError (truncated or overlong sequences, stray continuation
    bytes, surrogates, values above U+10FFFF). *)
Fixpoint decode (b : bytes) : option str :=
  match b with
  | [] => Some []
  | b0 :: r0 =>
      let n0 := Byte.to_N b0 in
      (if n0 <? 128 then push n0 (decode r0)
       else if n0 <? 194 then None
       else if n0 <? 224 then
         match r0 with
         | b1 :: r1 =>
             match cont b1 with
             | Some c1 => push ((n0 - 192) * 64 + c1) (decode r1)
             | None => None
             end
         | _ => None
         end
       else if n0 <? 240 then
         match r0 with
         | b1 :: b2 :: r2 =>
             match cont b1, cont b2 with
             | Some c1, Some c2 =>
                 let c := (n0 - 224) * 4096 + c1 * 64 + c2 in
                 if (c <? 2048) || is_surrogate c then None
                 else push c (decode r2)
             | _, _ => None
             end
         | _ => None
         end
       else if n0 <? 245 then
         match r0 with
         | b1 :: b2 :: b3 :: r3 =>
             match cont b1, cont b2, cont b3 with
             | Some c1, Some c2, Some c3 =>
                 let c := (n0 - 240) * 262144 + c1 * 4096 + c2 * 64 + c3 in
                 if (c <? 65536) || (1114111 <? c) then None
                 else push c (decode r3)
             | _, _, _ => None
             end
         | _ => None
         end
       else None)%N
  end.

End Utf8.

(** ** Floats *)

Module PyFloat.

(** Python's [float]: binary64. *)
Definition float := spec_float.

Definition prec : Z := 53.
Definition emax : Z := 1024.

(** The values a binary64 can hold. *)
Definition is_binary64 (x : float) : bool := valid_binary prec emax x.

Definition zero : float := S754_zero false.           (* 0.0 *)
Definition neg_zero : float := S754_zero true.        (* -0.0 *)
Definition one : float := S754_finite false 4503599627370496 (-52). (* 1.0 *)
Definition nan : float := S754_nan.                   (* float('nan') *)

Definition lt (x y : float) : bool := SFltb x y.      (* x < y *)
Definition le (x y : float) : bool := SFleb x y.      (* x <= y *)
Definition eq (x y : float) : bool := SFeqb x y.      (* x == y *)

Definition is_nan (x : float) : bool :=
  match x with S754_nan => true | _ => false end.

(** [bool(x)]: a float is falsy exactly when it compares equal to 0.0. *)
Definition truthy (x : float) : bool := negb (eq x zero).

End PyFloat.

(** ** The file system and the native library *)

(** [input_path: Union[str, Path, bytes]]: either the image bytes themselves
    or the path of a file. *)
Definition path := str.

Inductive input :=
| InBytes (b : bytes)
| InPath (p : path).

(** A file as [os.path.getsize] and [open(...).read()] see it: the size the
    file system reports and the bytes a read returns. *)
Record file := { st_size : Z; contents : bytes }.

Definition filesystem := path -> option file.

(** A bytes literal. *)
Definition blit (s : string) : bytes :=
  map byte_of_ascii (list_ascii_of_string s).

(** [len(x)] *)
Definition len {A} (l : list A) : Z := Z.of_nat (List.length l).

Module FFI.

(** ctypes stores a Python [int] into an unsigned field of [w] bits without
    an overflow check: the low [w] bits are kept. *)
Definition c_uint (w : Z) (n : Z) : Z := n mod 2 ^ w.

(** [POINTER(c_ubyte)]: NULL, or native memory indexed from the pointer. *)
Definition pointer := option (nat -> byte).

(** [c_char_p] read back as a Python value: [None] for NULL, else the bytes
    before the terminating NUL. *)
Definition c_char_p := option bytes.

Record _OptimizeOptions := {
  input_bytes : bytes;
  input_len : Z;
  max_bytes : Z;
  max_diff : PyFloat.float;
  metric_type : bytes;
  formats : bytes;
  concurrency : Z;
  cache_enabled : Z;
  cache_dir : bytes;
  cache_max_size : Z
}.

Record _OptimizeResult := {
  output_bytes : pointer;
  output_len : Z;
  format : c_char_p;
  diff_value : PyFloat.float;
  passed : Z;
  error_message : c_char_p
}.

Inductive field :=
| f_output_bytes | f_output_len | f_format
| f_diff_value | f_passed | f_error_message.

(** A non-null [POINTER(_OptimizeResult)]. *)
Definition handle := N.

(** [_lib.pyjamaz_optimize]: the engine, seen from the binding as a function
    from the request struct to a result struct, or NULL. *)
Definition engine := _OptimizeOptions -> option _OptimizeResult.

End FFI.

(** ** Exceptions, events and the monad *)

(** The text of a raised exception, one constructor per message of the
    source with the values its f-string interpolates. *)
Inductive message :=
| msg_concurrency (got : Z)        (* "concurrency must be 1-16, got {}" *)
| msg_max_bytes (got : Z)          (* "max_bytes must be non-negative, got {}" *)
| msg_max_diff (got : PyFloat.float) (* "max_diff must be 0.0-1.0, got {}" *)
| msg_metric (got : str)           (* "metric must be 'dssim', ..., got {}" *)
| msg_bytes_empty                  (* "Input bytes cannot be empty" *)
| msg_bytes_too_large (n : Z)      (* "Input too large: {} bytes (max {})" *)
| msg_file_empty (p : path)        (* "Input file is empty: {}" *)
| msg_file_too_large (n : Z)       (* "File too large: {} bytes (max {})" *)
| msg_null_pointer                 (* ctypes: "NULL pointer access" *)
| msg_index_overflow.              (* ctypes: slice stop beyond ssize_t *)

Inductive exn :=
| ValueError (m : message)
| FileNotFoundError (p : path)
| UnicodeEncodeError
| UnicodeDecodeError
| AttributeError.

(** What the call does to the outside world, in order. *)
Inductive event :=
| ev_exists (p : path)                      (* os.path.exists *)
| ev_getsize (p : path)                     (* os.path.getsize *)
| ev_read (p : path)                        (* open(p, 'rb').read() *)
| ev_optimize (o : FFI._OptimizeOptions)    (* _lib.pyjamaz_optimize *)
| ev_load (h : FFI.handle) (f : FFI.field)  (* a field read through the handle *)
| ev_free (h : FFI.handle).                 (* _lib.pyjamaz_free_result *)

(** The native heap holds the result structs the engine still owns. *)
Record state := {
  trace : list event;
  heap : list (FFI.handle * FFI._OptimizeResult);
  next : FFI.handle
}.

(** [Fault] is undefined behaviour on the native side: a read through a
    released handle, or a second release. *)
Inductive result (A : Type) :=
| Return (a : A)
| Raise (e : exn)
| Fault.

Arguments Return {A} a.
Arguments Raise {A} e.
Arguments Fault {A}.

Definition M (A : Type) := state -> result A * state.

Definition ret {A} (a : A) : M A := fun s => (Return a, s).

Definition bind {A B} (m : M A) (k : A -> M B) : M B :=
  fun s =>
    match m s with
    | (Return a, s') => k a s'
    | (Raise e, s') => (Raise e, s')
    | (Fault, s') => (Fault, s')
    end.

Declare Scope py_scope.
Delimit Scope py_scope with py.
Notation "x <- m ;; k" := (bind m (fun x => k))
  (at level 100, m at next level, right associativity) : py_scope.
Notation "m ;;; k" := (bind m (fun _ => k))
  (at level 100, right associativity) : py_scope.
Open Scope py_scope.

Definition raise {A} (e : exn) : M A := fun s => (Raise e, s).

Definition fault {A} : M A := fun s => (Fault, s).

Definition emit (e : event) : M unit :=
  fun s => (Return tt,
            {| trace := trace s ++ [e]; heap := heap s; next := next s |}).

(** [if cond: raise e] *)
Definition raise_if (cond : bool) (e : exn) : M unit :=
  if cond then raise e else ret tt.

(** [try: body finally: fin].  The finaliser runs whether the body returned
    or raised; an exception of the finaliser replaces the body's outcome. *)
Definition try_finally {A} (body : M A) (fin : M unit) : M A :=
  fun s =>
    match body s with
    | (Fault, s') => (Fault, s')
    | (r, s') =>
        match fin s' with
        | (Return _, s'') => (r, s'')
        | (Raise e, s'') => (Raise e, s'')
        | (Fault, s'') => (Fault, s'')
        end
    end.

Fixpoint lookup (h : FFI.handle) (hp : list (FFI.handle * FFI._OptimizeResult))
  : option FFI._OptimizeResult :=
  match hp with
  | [] => None
  | (k, r) :: rest => if N.eqb k h then Some r else lookup h rest
  end.

Definition remove (h : FFI.handle) (hp : list (FFI.handle * FFI._OptimizeResult))
  : list (FFI.handle * FFI._OptimizeResult) :=
  filter (fun kr => negb (N.eqb (fst kr) h)) hp.

(** ** The binding *)

(** [OptimizeResult], the dataclass the binding returns. *)
Record OptimizeResult := {
  output_buffer : bytes;
  format : str;
  diff_value : PyFloat.float;
  passed : bool;
  error_message : option str
}.

(** [OptimizeResult.size] *)
Definition size (r : OptimizeResult) : Z := len (output_buffer r).

(** The keyword arguments of [optimize_image]. *)
Module Args.
Record t := {
  input_path : input;
  max_bytes : option Z;
  max_diff : option PyFloat.float;
  metric : str;
  formats : option (list str);
  concurrency : Z;
  cache_enabled : bool;
  cache_dir : option str;
  cache_max_size : Z
}.

(** A call that passes the input only. *)
Definition defaults (i : input) : t :=
  {| input_path := i;
     max_bytes := None;
     max_diff := None;
     metric := lit "dssim";
     formats := None;
     concurrency := 4;
     cache_enabled := true;
     cache_dir := None;
     cache_max_size := 1024 * 1024 * 1024 |}.
End Args.

Definition MAX_INPUT_SIZE : Z := 100 * 1024 * 1024.

Definition accepted_metrics : list str :=
  [lit "dssim"; lit "ssimulacra2"; lit "none"].

(** [s.encode('utf-8')] *)
Definition encode_utf8 (s : str) : M bytes :=
  match Utf8.encode s with
  | Some b => ret b
  | None => raise UnicodeEncodeError
  end.

(** [b.decode('utf-8')] on the value of a [c_char_p] field. *)
Definition decode_utf8 (v : FFI.c_char_p) : M str :=
  match v with
  | None => raise AttributeError
  | Some b =>
      match Utf8.decode b with
      | Some s => ret s
      | None => raise UnicodeDecodeError
      end
  end.

(** Truth value of a [c_char_p] field: NULL and the empty string are falsy. *)
Definition truthy_char_p (v : FFI.c_char_p) : bool :=
  match v with
  | None | Some [] => false
  | Some (_ :: _) => true
  end.

(** [ptr[:n]] on a [POINTER(c_ubyte)], then [bytes(...)]. *)
Definition slice (ptr : FFI.pointer) (n : Z) : M bytes :=
  if n >? 2 ^ 63 - 1 then raise (ValueError msg_index_overflow)
  else if n <=? 0 then ret []
  else
    match ptr with
    | None => raise (ValueError msg_null_pointer)
    | Some mem => ret (map mem (seq 0 (Z.to_nat n)))
    end.

Section Binding.

Variable fs : filesystem.
Variable engine : FFI.engine.

Definition os_path_exists (p : path) : M bool :=
  emit (ev_exists p) ;;;
  ret (match fs p with Some _ => true | None => false end).

Definition os_path_getsize (p : path) : M Z :=
  emit (ev_getsize p) ;;;
  match fs p with
  | Some f => ret (st_size f)
  | None => raise (FileNotFoundError p)
  end.

Definition read_file (p : path) : M bytes :=
  emit (ev_read p) ;;;
  match fs p with
  | Some f => ret (contents f)
  | None => raise (FileNotFoundError p)
  end.

(** The native call.  A result struct the engine returns lives on the
    native heap under a fresh handle until it is released. *)
Definition pyjamaz_optimize (o : FFI._OptimizeOptions) : M (option FFI.handle) :=
  emit (ev_optimize o) ;;;
  match engine o with
  | None => ret None
  | Some r =>
      fun s =>
        (Return (Some (next s)),
         {| trace := trace s;
            heap := (next s, r) :: heap s;
            next := N.succ (next s) |})
  end.

Definition pyjamaz_free_result (h : FFI.handle) : M unit :=
  emit (ev_free h) ;;;
  fun s =>
    match lookup h (heap s) with
    | Some _ =>
        (Return tt,
         {| trace := trace s; heap := remove h (heap s); next := next s |})
    | None => (Fault, s)
    end.

(** [result_ptr.contents.<field>]: every read goes to native memory. *)
Definition load {A} (h : FFI.handle) (f : FFI.field)
    (proj : FFI._OptimizeResult -> A) : M A :=
  emit (ev_load h f) ;;;
  fun s =>
    match lookup h (heap s) with
    | Some r => (Return (proj r), s)
    | None => (Fault, s)
    end.

(** Lines 224-243: the input bytes, with the size checks. *)
Definition read_input (i : input) : M bytes :=
  match i with
  | InBytes input_bytes =>
      raise_if (len input_bytes =? 0) (ValueError msg_bytes_empty) ;;;
      raise_if (len input_bytes >? MAX_INPUT_SIZE)
               (ValueError (msg_bytes_too_large (len input_bytes))) ;;;
      ret input_bytes
  | InPath p =>
      e <- os_path_exists p ;;
      raise_if (negb e) (FileNotFoundError p) ;;;
      file_size <- os_path_getsize p ;;
      raise_if (file_size =? 0) (ValueError (msg_file_empty p)) ;;;
      raise_if (file_size >? MAX_INPUT_SIZE)
               (ValueError (msg_file_too_large file_size)) ;;;
      read_file p
  end.

(** Lines 283-308: copy the fields out of the result struct, then release
    it whatever happened. *)
Definition extract (h : FFI.handle) : M OptimizeResult :=
  try_finally
    (p <- load h FFI.f_passed FFI.passed ;;
     nonempty <- (if p =? 0 then ret false
                  else n <- load h FFI.f_output_len FFI.output_len ;;
                       ret (n >? 0)) ;;
     output_buffer <- (if nonempty : bool then
                         ptr <- load h FFI.f_output_bytes FFI.output_bytes ;;
                         n <- load h FFI.f_output_len FFI.output_len ;;
                         slice ptr n
                       else ret []) ;;
     f <- load h FFI.f_format FFI.format ;;
     format_str <- (if truthy_char_p f then
                      f' <- load h FFI.f_format FFI.format ;;
                      decode_utf8 f'
                    else ret []) ;;
     e <- load h FFI.f_error_message FFI.error_message ;;
     error_msg <- (if truthy_char_p e then
                     e' <- load h FFI.f_error_message FFI.error_message ;;
                     s <- decode_utf8 e' ;;
                     ret (Some s)
                   else ret None) ;;
     d <- load h FFI.f_diff_value FFI.diff_value ;;
     p' <- load h FFI.f_passed FFI.passed ;;
     ret {| output_buffer := output_buffer;
            format := format_str;
            diff_value := d;
            passed := negb (p' =? 0);
            error_message := error_msg |})
    (pyjamaz_free_result h).

(** Lines 211-221: the checks on the keyword arguments. *)
Definition validate (a : Args.t) : M unit :=
  let concurrency := Args.concurrency a in
  let metric := Args.metric a in
  raise_if ((concurrency <? 1) || (concurrency >? 16))
           (ValueError (msg_concurrency concurrency)) ;;;
  match Args.max_bytes a with
  | Some n => raise_if (n <? 0) (ValueError (msg_max_bytes n))
  | None => ret tt
  end ;;;
  match Args.max_diff a with
  | Some d => raise_if (PyFloat.lt d PyFloat.zero || PyFloat.lt PyFloat.one d)
                       (ValueError (msg_max_diff d))
  | None => ret tt
  end ;;;
  raise_if (negb (existsb (str_eqb metric) accepted_metrics))
           (ValueError (msg_metric metric)).

(** Lines 245-269: the request struct. *)
Definition marshal (a : Args.t) (input_bytes : bytes) : M FFI._OptimizeOptions :=
  let input_array := input_bytes in
  formats_str <- match Args.formats a with
                 | None => ret (blit "jpeg,png,webp,avif")
                 | Some l => encode_utf8 (join (lit ",") l)
                 end ;;
  cache_dir_bytes <- match Args.cache_dir a with
                     | Some (c :: d) => encode_utf8 (c :: d)
                     | _ => ret []
                     end ;;
  metric_type <- encode_utf8 (Args.metric a) ;;
  ret {| FFI.input_bytes := input_array;
         FFI.input_len := FFI.c_uint 64 (len input_bytes);
         FFI.max_bytes :=
           FFI.c_uint 32 (match Args.max_bytes a with
                          | Some n => if n =? 0 then 0 else n
                          | None => 0
                          end);
         FFI.max_diff :=
           match Args.max_diff a with
           | Some d => if PyFloat.truthy d then d else PyFloat.zero
           | None => PyFloat.zero
           end;
         FFI.metric_type := metric_type;
         FFI.formats := formats_str;
         FFI.concurrency := FFI.c_uint 8 (Args.concurrency a);
         FFI.cache_enabled := if Args.cache_enabled a then 1 else 0;
         FFI.cache_dir := cache_dir_bytes;
         FFI.cache_max_size := FFI.c_uint 64 (Args.cache_max_size a) |}.

(** The result returned when the native call gives NULL (lines 275-281). *)
Definition null_result : OptimizeResult :=
  {| output_buffer := [];
     format := [];
     diff_value := PyFloat.zero;
     passed := false;
     error_message := Some (lit "Optimization failed: null result") |}.

Definition optimize_image (a : Args.t) : M OptimizeResult :=
  validate a ;;;
  input_bytes <- read_input (Args.input_path a) ;;
  options <- marshal a input_bytes ;;
  result_ptr <- pyjamaz_optimize options ;;
  match result_ptr with
  | None => ret null_result
  | Some h => extract h
  end.

End Binding.

(** The state a call starts from: nothing logged, an empty native heap. *)
Definition initial : state := {| trace := []; heap := []; next := 1%N |}.

(** ** Vocabulary for the statements *)

Definition is_native_call (e : event) : bool :=
  match e with ev_optimize _ => true | _ => false end.

Definition is_file_read (e : event) : bool :=
  match e with ev_read _ => true | _ => false end.

Definition is_fs_event (e : event) : bool :=
  match e with ev_exists _ | ev_getsize _ | ev_read _ => true | _ => false end.

Definition is_load (h : FFI.handle) (e : event) : bool :=
  match e with ev_load h' _ => N.eqb h' h | _ => false end.

Definition is_free (h : FFI.handle) (e : event) : bool :=
  match e with ev_free h' => N.eqb h' h | _ => false end.

(** How many events of a kind a trace holds. *)
Definition count (p : event -> bool) (t : list event) : nat :=
  List.length (filter p t).

(** The request structs handed to the engine during a run. *)
Fixpoint requests (t : list event) : list FFI._OptimizeOptions :=
  match t with
  | [] => []
  | ev_optimize o :: r => o :: requests r
  | _ :: r => requests r
  end.

(** The state after some more events, the native heap untouched. *)
Definition logged (s : state) (evs : list event) : state :=
  {| trace := trace s ++ evs; heap := heap s; next := next s |}.

(** The state after the result struct [r] was allocated under the fresh
    handle, [evs] were logged, and the handle was released again. *)
Definition released (s : state) (evs : list event) : state :=
  {| trace := trace s ++ evs;
     heap := remove (next s) (heap s);
     next := N.succ (next s) |}.

(** A trace made of field reads through [h] closed by one release of [h]. *)
Fixpoint loads_then_free (h : FFI.handle) (evs : list event) : bool :=
  match evs with
  | [] => false
  | [e] => is_free h e
  | e :: rest => is_load h e && loads_then_free h rest
  end.

(** The value a [c_char_p] field has on the Python side after the idiom
    [x.decode('utf-8') if x else None], when decoding succeeds. *)
Definition text_of (v : FFI.c_char_p) : option str :=
  match v with
  | Some (x :: l) => Utf8.decode (x :: l)
  | _ => None
  end.

(** The field holds well-formed UTF-8 (or is NULL). *)
Definition decodable (v : FFI.c_char_p) : Prop :=
  match v with
  | Some b => Utf8.decode b <> None
  | None => True
  end.

Definition field_eqb (f g : FFI.field) : bool :=
  match f, g with
  | FFI.f_output_bytes, FFI.f_output_bytes
  | FFI.f_output_len, FFI.f_output_len
  | FFI.f_format, FFI.f_format
  | FFI.f_diff_value, FFI.f_diff_value
  | FFI.f_passed, FFI.f_passed
  | FFI.f_error_message, FFI.f_error_message => true
  | _, _ => false
  end.

(** Some event of the trace reads field [f] of the struct behind [h]. *)
Definition reads (h : FFI.handle) (f : FFI.field) (evs : list event) : bool :=
  existsb (fun e => match e with
                    | ev_load h' f' => N.eqb h' h && field_eqb f f'
                    | _ => false
                    end) evs.

(** What [extract] copies out of a [c_char_p] field. *)
Definition copy_text (v : FFI.c_char_p) : result (option str) :=
  match v with
  | None | Some [] => Return None
  | Some b =>
      match Utf8.decode b with
      | Some s => Return (Some s)
      | None => Raise UnicodeDecodeError
      end
  end.

(** What [extract] copies out of the output buffer. *)
Definition copy_buffer (r : FFI._OptimizeResult) : result bytes :=
  if FFI.passed r =? 0 then Return []
  else if FFI.output_len r >? 0 then
    if FFI.output_len r >? 2 ^ 63 - 1 then Raise (ValueError msg_index_overflow)
    else
      match FFI.output_bytes r with
      | None => Raise (ValueError msg_null_pointer)
      | Some mem => Return (map mem (seq 0 (Z.to_nat (FFI.output_len r))))
      end
  else Return [].

(** The outcome of [extract] on the result struct [r], as a function of the
    struct alone; [extract_run] relates it to the code. *)
Definition copy_out (r : FFI._OptimizeResult) : result OptimizeResult :=
  match copy_buffer r with
  | Return buf =>
      match copy_text (FFI.format r) with
      | Return f =>
          match copy_text (FFI.error_message r) with
          | Return e =>
              Return {| output_buffer := buf;
                        format := match f with Some t => t | None => [] end;
                        diff_value := FFI.diff_value r;
                        passed := negb (FFI.passed r =? 0);
                        error_message := e |}
          | Raise x => Raise x
          | Fault => Fault
          end
      | Raise x => Raise x
      | Fault => Fault
      end
  | Raise x => Raise x
  | Fault => Fault
  end.

(** When [extract] returns a value, the format and the error message were
    read from the struct, and so was the output buffer unless the value
    holds no bytes. *)
Definition copies_logged (h : FFI.handle) (r : FFI._OptimizeResult)
    (evs : list event) : bool :=
  match copy_out r with
  | Return res =>
      reads h FFI.f_format evs && reads h FFI.f_error_message evs
      && (reads h FFI.f_output_bytes evs
          || match output_buffer res with [] => true | _ => false end)
  | _ => true
  end.

(** The messages of the size checks on the input. *)
Definition is_input_message (m : message) : bool :=
  match m with
  | msg_bytes_empty | msg_bytes_too_large _
  | msg_file_empty _ | msg_file_too_large _ => true
  | _ => false
  end.

(** The messages ctypes raises while the output buffer is sliced. *)
Definition is_ctypes_message (m : message) : bool :=
  match m with
  | msg_null_pointer | msg_index_overflow => true
  | _ => false
  end.

(** The five ways a call of [optimize_image] can go, with the events each
    one leaves behind.  [optimize_image_run] shows every call is one of
    them. *)
Inductive run_of (fs : filesystem) (engine : FFI.engine) (a : Args.t)
    (s : state) : result OptimizeResult -> state -> Prop :=
| run_invalid m :
    validate a s = (Raise (ValueError m), s) ->
    run_of fs engine a s (Raise (ValueError m)) s
| run_unreadable e evs :
    validate a s = (Return tt, s) ->
    read_input fs (Args.input_path a) s = (Raise e, logged s evs) ->
    forallb is_fs_event evs = true ->
    count is_file_read evs = 0%nat ->
    run_of fs engine a s (Raise e) (logged s evs)
| run_unencodable b evs :
    validate a s = (Return tt, s) ->
    read_input fs (Args.input_path a) s = (Return b, logged s evs) ->
    forallb is_fs_event evs = true ->
    marshal a b (logged s evs) = (Raise UnicodeEncodeError, logged s evs) ->
    run_of fs engine a s (Raise UnicodeEncodeError) (logged s evs)
| run_null b evs o :
    validate a s = (Return tt, s) ->
    read_input fs (Args.input_path a) s = (Return b, logged s evs) ->
    forallb is_fs_event evs = true ->
    marshal a b (logged s evs) = (Return o, logged s evs) ->
    engine o = None ->
    run_of fs engine a s (Return null_result)
           (logged s (evs ++ [ev_optimize o]))
| run_handle b evs o r loads :
    validate a s = (Return tt, s) ->
    read_input fs (Args.input_path a) s = (Return b, logged s evs) ->
    forallb is_fs_event evs = true ->
    marshal a b (logged s evs) = (Return o, logged s evs) ->
    engine o = Some r ->
    loads_then_free (next s) loads = true ->
    copies_logged (next s) r loads = true ->
    run_of fs engine a s (copy_out r)
           (released s (evs ++ ev_optimize o :: loads)).


(** ** The contract of the engine *)

(** Modelled from the spec: the native engine behind [pyjamaz_optimize] is
    not among the sources.  Its result struct obeys the invariant of
    OptimizationResult (section 3: if [passed] is true the output bytes are
    non-empty) and, when [passed] is false, carries the descriptive error of
    sections 6 and 7 (the message is null or empty only when passed). *)
Definition result_struct_ok (r : FFI._OptimizeResult) : Prop :=
  (FFI.passed r <> 0 -> 0 < FFI.output_len r) /\
  (FFI.passed r = 0 ->
   exists b, FFI.error_message r = Some b /\ b <> []).

Definition engine_contract (engine : FFI.engine) : Prop :=
  forall o r, engine o = Some r -> result_struct_ok r.

(** ** Sample worlds *)

Module Sample.

Definition no_files : filesystem := fun _ => None.

(** The first bytes of a JPEG file. *)
Definition jpeg : bytes := [xff; xd8; xff; xe0].

(** An input one byte above the cap. *)
Definition oversized : bytes := repeat x00 (Z.to_nat (MAX_INPUT_SIZE + 1)).

Definition empty_file : file := {| st_size := 0; contents := [] |}.

Definition huge_file : file :=
  {| st_size := MAX_INPUT_SIZE + 1; contents := [] |}.

(** A file system with one file, at path ["in.jpg"]. *)
Definition one_file (f : file) : filesystem :=
  fun p => if str_eqb p (lit "in.jpg") then Some f else None.

(** An engine that cannot allocate its result. *)
Definition null_engine : FFI.engine := fun _ => None.

Definition candidate : nat -> byte := fun i => nth i [x01; x02; x03] x00.

(** The struct of a search that met no constraint: the best-effort
    candidate, [passed = 0] and a message. *)
Definition constraint_failure : FFI._OptimizeResult :=
  {| FFI.output_bytes := Some candidate;
     FFI.output_len := 3;
     FFI.format := Some (blit "jpeg");
     FFI.diff_value := PyFloat.zero;
     FFI.passed := 0;
     FFI.error_message := Some (blit "max_bytes exceeded") |}.

(** The struct of a search that succeeded. *)
Definition success : FFI._OptimizeResult :=
  {| FFI.output_bytes := Some candidate;
     FFI.output_len := 3;
     FFI.format := Some (blit "webp");
     FFI.diff_value := PyFloat.zero;
     FFI.passed := 1;
     FFI.error_message := None |}.

(** A struct whose message is not UTF-8. *)
Definition garbled : FFI._OptimizeResult :=
  {| FFI.output_bytes := Some candidate;
     FFI.output_len := 3;
     FFI.format := Some (blit "webp");
     FFI.diff_value := PyFloat.zero;
     FFI.passed := 1;
     FFI.error_message := Some [xff] |}.

Definition failing_engine : FFI.engine := fun _ => Some constraint_failure.
Definition working_engine : FFI.engine := fun _ => Some success.
Definition garbling_engine : FFI.engine := fun _ => Some garbled.

(** [optimize_image(jpeg, metric=m, concurrency=c)] *)
Definition call (m : str) (c : Z) : Args.t :=
  {| Args.input_path := InBytes jpeg;
     Args.max_bytes := None;
     Args.max_diff := None;
     Args.metric := m;
     Args.formats := None;
     Args.concurrency := c;
     Args.cache_enabled := true;
     Args.cache_dir := None;
     Args.cache_max_size := 1024 * 1024 * 1024 |}.

(** [optimize_image(jpeg, max_bytes=10)] *)
Definition call_max_bytes : Args.t :=
  {| Args.input_path := InBytes jpeg;
     Args.max_bytes := Some 10;
     Args.max_diff := None;
     Args.metric := lit "dssim";
     Args.formats := None;
     Args.concurrency := 4;
     Args.cache_enabled := true;
     Args.cache_dir := None;
     Args.cache_max_size := 1024 * 1024 * 1024 |}.

(** [optimize_image(jpeg, formats=l)] *)
Definition call_formats (l : list str) : Args.t :=
  {| Args.input_path := InBytes jpeg;
     Args.max_bytes := None;
     Args.max_diff := None;
     Args.metric := lit "dssim";
     Args.formats := Some l;
     Args.concurrency := 4;
     Args.cache_enabled := true;
     Args.cache_dir := None;
     Args.cache_max_size := 1024 * 1024 * 1024 |}.

(** [optimize_image(jpeg, max_diff=d)] *)
Definition call_max_diff (d : PyFloat.float) : Args.t :=
  {| Args.input_path := InBytes jpeg;
     Args.max_bytes := None;
     Args.max_diff := Some d;
     Args.metric := lit "dssim";
     Args.formats := None;
     Args.concurrency := 4;
     Args.cache_enabled := true;
     Args.cache_dir := None;
     Args.cache_max_size := 1024 * 1024 * 1024 |}.

(** [optimize_image(i)] *)
Definition call_input (i : input) : Args.t := Args.defaults i.

(** The request struct a call on [jpeg] with the default cache settings
    sends. *)
Definition request (max_bytes : Z) (metric formats : bytes) (c : Z)
  : FFI._OptimizeOptions :=
  {| FFI.input_bytes := jpeg;
     FFI.input_len := 4;
     FFI.max_bytes := max_bytes;
     FFI.max_diff := PyFloat.zero;
     FFI.metric_type := metric;
     FFI.formats := formats;
     FFI.concurrency := c;
     FFI.cache_enabled := 1;
     FFI.cache_dir := [];
     FFI.cache_max_size := 1073741824 |}.

(** 1.5 and -0.25 *)
Definition one_and_a_half : PyFloat.float :=
  S754_finite false 6755399441055744 (-52).
Definition minus_quarter : PyFloat.float :=
  S754_finite true 4503599627370496 (-54).

End Sample.

(** ** Sequences of calls *)

Definition is_release (e : event) : bool :=
  match e with ev_free _ => true | _ => false end.

(** The engine answers the request with a struct, not with NULL. *)
Definition answered (engine : FFI.engine) (o : FFI._OptimizeOptions) : bool :=
  match engine o with Some _ => true | None => false end.

(** The handle the next native call will get is not in use. *)
Definition fresh (s : state) : Prop :=
  forall h r, In (h, r) (heap s) -> (h < next s)%N.

(** The same call on another input. *)
Definition with_input (a : Args.t) (i : input) : Args.t :=
  {| Args.input_path := i;
     Args.max_bytes := Args.max_bytes a;
     Args.max_diff := Args.max_diff a;
     Args.metric := Args.metric a;
     Args.formats := Args.formats a;
     Args.concurrency := Args.concurrency a;
     Args.cache_enabled := Args.cache_enabled a;
     Args.cache_dir := Args.cache_dir a;
     Args.cache_max_size := Args.cache_max_size a |}.

(** One call after the other, as the loops of the test suite make them
    ([for concurrency in [1, 2, 4]: ...], [for _ in range(100): ...]): an
    exception ends the loop. *)
Fixpoint optimize_all (fs : filesystem) (engine : FFI.engine)
    (calls : list Args.t) : M (list OptimizeResult) :=
  match calls with
  | [] => ret []
  | a :: rest =>
      r <- optimize_image fs engine a ;;
      rs <- optimize_all fs engine rest ;;
      ret (r :: rs)
  end.

(** The request struct of a call that got as far as the engine, field by
    field, from the arguments and the input bytes [b]. *)
Definition request_of (a : Args.t) (b : bytes) (metric_type formats cache_dir : bytes)
  : FFI._OptimizeOptions :=
  {| FFI.input_bytes := b;
     FFI.input_len := len b mod 2 ^ 64;
     FFI.max_bytes := match Args.max_bytes a with
                      | Some n => n mod 2 ^ 32
                      | None => 0
                      end;
     FFI.max_diff := match Args.max_diff a with
                     | Some d => if PyFloat.eq d PyFloat.zero
                                 then PyFloat.zero else d
                     | None => PyFloat.zero
                     end;
     FFI.metric_type := metric_type;
     FFI.formats := formats;
     FFI.concurrency := Args.concurrency a;
     FFI.cache_enabled := if Args.cache_enabled a then 1 else 0;
     FFI.cache_dir := cache_dir;
     FFI.cache_max_size := Args.cache_max_size a mod 2 ^ 64 |}.

(** ** Saving a result *)

(** What [OptimizeResult.save] raises: RuntimeError with the text
    "Optimization failed: {self.error_message}", or the OSError of an
    [open(path, 'wb')] that fails. *)
Inductive save_error :=
| RuntimeError (error_message : option str)
| OSError (p : path).

(** The file system after [open(p, 'wb')] and [f.write(b)]: the file at [p]
    is created or replaced, the others are as they were. *)
Definition write_file (fs : filesystem) (p : path) (b : bytes) : filesystem :=
  fun q => if str_eqb q p
           then Some {| st_size := len b; contents := b |}
           else fs q.

(** [OptimizeResult.save(path)] (lines 152-165).  [can_open] says which
    paths can be opened for writing. *)
Definition save (can_open : path -> bool) (self : OptimizeResult) (p : path)
    (fs : filesystem) : (save_error + unit) * filesystem :=
  if negb (passed self) then (inl (RuntimeError (error_message self)), fs)
  else if can_open p then (inr tt, write_file fs p (output_buffer self))
  else (inl (OSError p), fs).

(** ** Finding the shared library *)

Module Loader.

(** A [pathlib] path: its anchor (drive and root, empty when relative) and
    the names below it. *)
Record Path := { anchor : str; names : list str }.

(** [p.parent] *)
Definition parent (p : Path) : Path :=
  {| anchor := anchor p; names := removelast (names p) |}.

(** [p / name], for a name without separator. *)
Definition div (p : Path) (name : str) : Path :=
  {| anchor := anchor p; names := names p ++ [name] |}.

Definition path_eqb (p q : Path) : bool :=
  str_eqb (anchor p) (anchor q)
  && (if list_eq_dec (list_eq_dec N.eq_dec) (names p) (names q)
      then true else false).

(** What [_find_library] asks of the process and of the machine. *)
Record world := {
  environ : option str;            (* os.environ.get("PYJAMAZ_LIB_PATH") *)
  platform : str;                  (* sys.platform *)
  file : Path;                     (* Path(__file__) *)
  os_path_exists : str -> bool;    (* os.path.exists *)
  path_exists : Path -> bool;      (* Path.exists *)
  fspath : Path -> str;            (* str(path) *)
  CDLL : str -> bool;              (* ctypes.CDLL(name) returns, or raises *)
  find_library : option (option str)
    (* ctypes.util.find_library("pyjamaz"): [None] when the call raises *)
}.

(** What [_find_library] does, in order. *)
Inductive action :=
| probe_env (p : str)           (* os.path.exists(lib_path) *)
| probe (p : Path)              (* p.exists() *)
| preload (name : str)          (* ctypes.CDLL(str(bundled_avif)) *)
| warn_preload                  (* "Warning: Failed to load bundled libavif" *)
| search_system                 (* ctypes.util.find_library("pyjamaz") *)
| warn_search.                  (* "Warning: ctypes.util.find_library failed" *)

(** The RuntimeError at the end, with the two locations its text lists. *)
Inductive not_found := NotFound (bundled dev : Path).

(** [(lib_name, libavif_name)] for a platform (lines 27-35). *)
Definition lib_names (platform : str) : str * str :=
  if str_eqb platform (lit "darwin")
  then (lit "libpyjamaz.dylib", lit "libavif.16.dylib")
  else if str_eqb platform (lit "win32")
  then (lit "pyjamaz.dll", lit "avif.dll")
  else (lit "libpyjamaz.so", lit "libavif.so.16").

Definition package_dir (w : world) : Path := parent (file w).
Definition native_dir (w : world) : Path := div (package_dir w) (lit "native").
Definition bundled_lib (w : world) : Path :=
  div (native_dir w) (fst (lib_names (platform w))).
Definition bundled_avif (w : world) : Path :=
  div (native_dir w) (snd (lib_names (platform w))).
Definition dev_lib_path (w : world) : Path :=
  div (div (div (parent (parent (parent (package_dir w)))) (lit "zig-out"))
           (lit "lib"))
      (fst (lib_names (platform w))).

(** Lines 52-75: the development tree, the system paths, the error. *)
Definition find_elsewhere (w : world) : (not_found + str) * list action :=
  if path_exists w (dev_lib_path w)
  then (inr (fspath w (dev_lib_path w)), [probe (dev_lib_path w)])
  else
    match find_library w with
    | Some (Some (c :: r)) =>
        (inr (c :: r), [probe (dev_lib_path w); search_system])
    | Some _ =>
        (inl (NotFound (bundled_lib w) (dev_lib_path w)),
         [probe (dev_lib_path w); search_system])
    | None =>
        (inl (NotFound (bundled_lib w) (dev_lib_path w)),
         [probe (dev_lib_path w); search_system; warn_search])
    end.

(** Lines 37-50, then the rest. *)
Definition find_bundled (w : world) : (not_found + str) * list action :=
  if path_exists w (bundled_lib w) then
    (inr (fspath w (bundled_lib w)),
     probe (bundled_lib w)
     :: (if path_exists w (bundled_avif w)
         then probe (bundled_avif w)
              :: preload (fspath w (bundled_avif w))
              :: (if CDLL w (fspath w (bundled_avif w))
                  then [] else [warn_preload])
         else [probe (bundled_avif w)]))
  else
    let (r, t) := find_elsewhere w in (r, probe (bundled_lib w) :: t).

(** [_find_library()] (lines 18-75). *)
Definition _find_library (w : world) : (not_found + str) * list action :=
  match environ w with
  | Some lib_path =>
      if os_path_exists w lib_path then (inr lib_path, [probe_env lib_path])
      else let (r, t) := find_bundled w in (r, probe_env lib_path :: t)
  | None => find_bundled w
  end.

(** The same world with another loader of shared objects. *)
Definition with_CDLL (w : world) (f : str -> bool) : world :=
  {| environ := environ w; platform := platform w; file := file w;
     os_path_exists := os_path_exists w; path_exists := path_exists w;
     fspath := fspath w; CDLL := f; find_library := find_library w |}.

Definition is_preload (a : action) : bool :=
  match a with preload _ => true | _ => false end.

(** The four places the library can be, by priority. *)
Definition env_hit (w : world) (p : str) : Prop :=
  environ w = Some p /\ os_path_exists w p = true.

Definition no_env_hit (w : world) : Prop :=
  forall p, environ w = Some p -> os_path_exists w p = false.

Definition system_hit (w : world) (p : str) : Prop :=
  find_library w = Some (Some p) /\ p <> [].

(** [p] is the first location, in the order of the search, that holds the
    library. *)
Definition first_hit (w : world) (p : str) : Prop :=
  env_hit w p
  \/ (no_env_hit w /\ path_exists w (bundled_lib w) = true /\
      p = fspath w (bundled_lib w))
  \/ (no_env_hit w /\ path_exists w (bundled_lib w) = false /\
      path_exists w (dev_lib_path w) = true /\
      p = fspath w (dev_lib_path w))
  \/ (no_env_hit w /\ path_exists w (bundled_lib w) = false /\
      path_exists w (dev_lib_path w) = false /\ system_hit w p).

(** No location holds the library. *)
Definition no_hit (w : world) : Prop :=
  no_env_hit w /\ path_exists w (bundled_lib w) = false /\
  path_exists w (dev_lib_path w) = false /\ forall p, ~ system_hit w p.

End Loader.

(** ** Bundling the libraries into the wheel ([setup.py]) *)

Module Build.

Import Loader.

(** What [BuildPyWithNativeLibs.run] prints. *)
Inductive note :=
| unsupported (system : str)          (* "Warning: Unsupported platform ..." *)
| bundling (name : str)               (* "Bundling ... into wheel..." *)
| missing (name : str) (source : Path). (* "Warning: ... not found at ..." *)

(** What the command knows: [platform.system()], [Path(__file__)] of
    setup.py and [self.build_lib]. *)
Record command := {
  system : str;
  setup_file : Path;
  build_lib : Path
}.

Definition project_root (c : command) : Path :=
  parent (parent (parent (setup_file c))).

Definition zig_out_lib (c : command) : Path :=
  div (div (project_root c) (lit "zig-out")) (lit "lib").

(** [(libpyjamaz, libavif, libavif_source)], or nothing on a platform the
    build does not bundle for (lines 32-42). *)
Definition libraries (c : command) : option (str * str * Path) :=
  if str_eqb (system c) (lit "Darwin") then
    Some (lit "libpyjamaz.dylib", lit "libavif.16.dylib",
          div {| anchor := lit "/";
                 names := [lit "opt"; lit "homebrew"; lit "opt";
                           lit "libavif"; lit "lib"] |}
              (lit "libavif.16.dylib"))
  else if str_eqb (system c) (lit "Linux") then
    Some (lit "libpyjamaz.so", lit "libavif.so.16",
          div {| anchor := lit "/"; names := [lit "usr"; lit "lib"] |}
              (lit "libavif.so.16"))
  else None.

Definition native_dir (c : command) : Path :=
  div (div (build_lib c) (lit "pyjamaz")) (lit "native").

Section Run.

(** The file tree and the library calls on it; [None] is an exception. *)
Variable tree : Type.
Variable exists_ : tree -> Path -> bool.          (* p.exists() *)
Variable build_py_run : tree -> option tree.      (* super().run() *)
Variable mkdir : Path -> tree -> option tree.
  (* p.mkdir(parents=True, exist_ok=True) *)
Variable copy2 : Path -> Path -> tree -> option tree.  (* shutil.copy2 *)

(** Lines 49-55 and 57-62: copy one library if its source exists. *)
Definition bundle_one (name : str) (source target : Path) (t : tree)
  : option tree * list note :=
  if exists_ t source then (copy2 source target t, [bundling name])
  else (Some t, [missing name source]).

(** [BuildPyWithNativeLibs.run] (lines 19-62). *)
Definition run (c : command) (t : tree) : option tree * list note :=
  match build_py_run t with
  | None => (None, [])
  | Some t0 =>
      match libraries c with
      | None => (Some t0, [unsupported (system c)])
      | Some (libpyjamaz, libavif, libavif_source) =>
          match mkdir (native_dir c) t0 with
          | None => (None, [])
          | Some t1 =>
              match bundle_one libpyjamaz (div (zig_out_lib c) libpyjamaz)
                               (div (native_dir c) libpyjamaz) t1 with
              | (None, n1) => (None, n1)
              | (Some t2, n1) =>
                  let (r, n2) := bundle_one libavif libavif_source
                                            (div (native_dir c) libavif) t2 in
                  (r, n1 ++ n2)
              end
          end
      end
  end.

End Run.

(** What the file-tree calls promise: none of them removes a path, and a
    copy that returns leaves its target in place. *)
Record tree_contract {tree : Type} (exists_ : tree -> Path -> bool)
    (mkdir : Path -> tree -> option tree)
    (copy2 : Path -> Path -> tree -> option tree) : Prop := {
  mkdir_keeps : forall p t t' q,
    mkdir p t = Some t' -> exists_ t q = true -> exists_ t' q = true;
  copy2_keeps : forall src dst t t' q,
    copy2 src dst t = Some t' -> exists_ t q = true -> exists_ t' q = true;
  copy2_makes : forall src dst t t',
    copy2 src dst t = Some t' -> exists_ t' dst = true
}.

(** A tree as the set of the paths that exist, for the examples. *)
Definition paths := list Path.

Definition paths_exists (t : paths) (p : Path) : bool :=
  existsb (path_eqb p) t.

Definition paths_mkdir (p : Path) (t : paths) : option paths := Some (p :: t).

Definition paths_copy2 (src dst : Path) (t : paths) : option paths :=
  if paths_exists t src then Some (dst :: t) else None.

End Build.

(** A Linux checkout whose engine was built, and the loader run from its
    build tree. *)
Module BuildSample.

Import Loader.

Definition root (l : list str) : Path := {| anchor := lit "/"; names := l |}.

Definition checkout : Build.command :=
  {| Build.system := lit "Linux";
     Build.setup_file :=
       root [lit "repo"; lit "bindings"; lit "python"; lit "setup.py"];
     Build.build_lib := {| anchor := []; names := [lit "build"] |} |}.

Definition built : Build.paths :=
  [root [lit "repo"; lit "zig-out"; lit "lib"; lit "libpyjamaz.so"]].

Definition after_run : Build.paths :=
  match fst (Build.run Build.paths Build.paths_exists (fun t => Some t)
                       Build.paths_mkdir Build.paths_copy2 checkout built) with
  | Some t => t
  | None => []
  end.

Definition loader : world :=
  {| environ := None;
     platform := lit "linux";
     file := div (div (Build.build_lib checkout) (lit "pyjamaz"))
                 (lit "__init__.py");
     os_path_exists := fun _ => false;
     path_exists := Build.paths_exists after_run;
     fspath := fun p => anchor p ++ join (lit "/") (names p);
     CDLL := fun _ => false;
     find_library := None |}.

End BuildSample.

(** ** The verification script ([examples/test_bundled_package.py]) *)

Module Script.

(** How a test function ended: it returned a truth value, or it raised. *)
Definition outcome := option bool.

(** What [main] prints once the tests have run. *)
Inductive line :=
| crashed (name : str)               (* "Test '...' crashed: ..." *)
| summary_header                     (* print_section("Test Summary") *)
| status (passed : bool) (name : str) (* "PASS  name" or "FAIL  name" *)
| totals (passed total : nat)        (* "Results: p/t tests passed" *)
| ready                              (* "All tests passed! ..." *)
| failed (n : nat).                  (* "n test(s) failed." *)

(** The loop of lines 246-255: a test that raises counts as failed. *)
Fixpoint run_tests (tests : list (str * outcome))
  : list (str * bool) * list line :=
  match tests with
  | [] => ([], [])
  | (name, o) :: rest =>
      let (results, out) := run_tests rest in
      match o with
      | Some passed => ((name, passed) :: results, out)
      | None => ((name, false) :: results, crashed name :: out)
      end
  end.

(** [main()] (lines 225-273): the exit status and what is printed. *)
Definition main (tests : list (str * outcome)) : Z * list line :=
  let (results, out) := run_tests tests in
  let passed_count := List.length (filter snd results) in
  let total_count := List.length results in
  let report :=
    out ++ [summary_header]
        ++ map (fun r => status (snd r) (fst r)) results
        ++ [totals passed_count total_count] in
  if Nat.eqb passed_count total_count
  then (0, report ++ [ready])
  else (1, report ++ [failed (total_count - passed_count)]).

End Script.

(** ** Examples *)

Example utf8_decode_dssim :
  Utf8.decode (blit "dssim") = Some (lit "dssim").
Proof. reflexivity. Qed.

Example utf8_decode_euro :
  Utf8.decode [xe2; x82; xac] = Some [8364%N].
Proof. reflexivity. Qed.

Example utf8_decode_stray_continuation : Utf8.decode [x80] = None.
Proof. reflexivity. Qed.

Example utf8_decode_overlong : Utf8.decode [xc0; x80] = None.
Proof. reflexivity. Qed.

Example utf8_encode_euro : Utf8.encode [8364%N] = Some [xe2; x82; xac].
Proof. reflexivity. Qed.

Example utf8_encode_surrogate : Utf8.encode [55296%N] = None.
Proof. reflexivity. Qed.

Example pyfloat_one_valid : PyFloat.is_binary64 PyFloat.one = true.
Proof. reflexivity. Qed.

Example pyfloat_nan_not_below_zero : PyFloat.lt PyFloat.nan PyFloat.zero = false.
Proof. reflexivity. Qed.

Example pyfloat_nan_not_above_one : PyFloat.lt PyFloat.one PyFloat.nan = false.
Proof. reflexivity. Qed.

(** ** The codec *)

Lemma push_nonempty c r s : Utf8.push c r = Some s -> s <> [].
Proof.
  destruct r; simpl; intros H; inversion H; discriminate.
Qed.

(** Decoding never turns a non-empty byte string into the empty text. *)
Lemma decode_nonempty b s :
  Utf8.decode b = Some s -> b <> [] -> s <> [].
Proof.
  destruct b as [|b0 r0]; [congruence|].
  intros H _. cbn [Utf8.decode] in H. cbv zeta in H.
  repeat match type of H with
         | (if ?c then _ else _) = _ => destruct c
         | match ?l with [] => _ | _ :: _ => _ end = _ => destruct l
         | match Utf8.cont ?x with Some _ => _ | None => _ end = _ =>
             destruct (Utf8.cont x)
         | None = Some _ => discriminate H
         | Utf8.push _ _ = Some _ => exact (push_nonempty _ _ _ H)
         end.
Qed.

(** ** The monad *)

Ltac run :=
  cbv beta iota delta [bind ret raise raise_if emit fault] in *.

Section Validation.

Variable a : Args.t.
Variable s : state.

Lemma validate_concurrency_rejected :
  Args.concurrency a < 1 \/ 16 < Args.concurrency a ->
  validate a s = (Raise (ValueError (msg_concurrency (Args.concurrency a))), s).
Proof.
  intros H. unfold validate.
  replace ((Args.concurrency a <? 1) || (Args.concurrency a >? 16)) with true.
  - reflexivity.
  - symmetry. apply orb_true_iff. rewrite Z.ltb_lt, Z.gtb_gt. lia.
Qed.

(** Any failed check raises ValueError and leaves the world untouched. *)
Lemma validate_cases :
  validate a s = (Return tt, s) \/
  exists m, validate a s = (Raise (ValueError m), s).
Proof.
  unfold validate. run.
  destruct ((Args.concurrency a <? 1) || (Args.concurrency a >? 16));
    [right; eexists; reflexivity|].
  destruct (Args.max_bytes a) as [n|];
    [destruct (n <? 0); [right; eexists; reflexivity|]|].
  all: destruct (Args.max_diff a) as [d|];
    [destruct (PyFloat.lt d PyFloat.zero || PyFloat.lt PyFloat.one d);
     [right; eexists; reflexivity|]|].
  all: destruct (existsb (str_eqb (Args.metric a)) accepted_metrics);
    [left; reflexivity | right; eexists; reflexivity].
Qed.

Lemma validate_accepts :
  1 <= Args.concurrency a <= 16 ->
  (forall n, Args.max_bytes a = Some n -> 0 <= n) ->
  (forall d, Args.max_diff a = Some d ->
             PyFloat.lt d PyFloat.zero = false /\ PyFloat.lt PyFloat.one d = false) ->
  In (Args.metric a) accepted_metrics ->
  validate a s = (Return tt, s).
Proof.
  intros Hc Hb Hd Hm. unfold validate. run.
  replace ((Args.concurrency a <? 1) || (Args.concurrency a >? 16)) with false.
  2:{ symmetry. apply orb_false_iff. rewrite Z.ltb_ge.
      split; [lia|]. rewrite Z.gtb_ltb. apply Z.ltb_ge. lia. }
  assert (Hex : existsb (str_eqb (Args.metric a)) accepted_metrics = true).
  { apply existsb_exists. exists (Args.metric a). split; [exact Hm|].
    unfold str_eqb. destruct (list_eq_dec N.eq_dec _ _); congruence. }
  rewrite Hex.
  destruct (Args.max_bytes a) as [n|].
  - specialize (Hb n eq_refl).
    replace (n <? 0) with false by (symmetry; apply Z.ltb_ge; lia).
    destruct (Args.max_diff a) as [d|]; [|reflexivity].
    destruct (Hd d eq_refl) as [H0 H1]. rewrite H0, H1. reflexivity.
  - destruct (Args.max_diff a) as [d|]; [|reflexivity].
    destruct (Hd d eq_refl) as [H0 H1]. rewrite H0, H1. reflexivity.
Qed.

Lemma str_eqb_eq (x y : str) : str_eqb x y = true <-> x = y.
Proof.
  unfold str_eqb. destruct (list_eq_dec N.eq_dec x y); split; congruence.
Qed.

Lemma metric_check (m : str) :
  existsb (str_eqb m) accepted_metrics = true <-> In m accepted_metrics.
Proof.
  rewrite existsb_exists. split.
  - intros (x & Hx & E). apply str_eqb_eq in E. now subst.
  - intros H. exists m. split; [exact H|]. now apply str_eqb_eq.
Qed.

(** What each outcome of the checks says about the arguments. *)
Lemma validate_inv out s' :
  validate a s = (out, s') ->
  s' = s /\
  match out with
  | Return _ =>
      1 <= Args.concurrency a <= 16 /\
      (forall n, Args.max_bytes a = Some n -> 0 <= n) /\
      (forall d, Args.max_diff a = Some d ->
                 PyFloat.lt d PyFloat.zero = false /\
                 PyFloat.lt PyFloat.one d = false) /\
      In (Args.metric a) accepted_metrics
  | Raise (ValueError (msg_concurrency c)) =>
      c = Args.concurrency a /\ (c < 1 \/ 16 < c)
  | Raise (ValueError (msg_max_bytes n)) =>
      Args.max_bytes a = Some n /\ n < 0
  | Raise (ValueError (msg_max_diff d)) =>
      Args.max_diff a = Some d /\
      (PyFloat.lt d PyFloat.zero = true \/ PyFloat.lt PyFloat.one d = true)
  | Raise (ValueError (msg_metric m)) =>
      m = Args.metric a /\ ~ In m accepted_metrics
  | _ => False
  end.
Proof.
  unfold validate. run.
  destruct ((Args.concurrency a <? 1) || (Args.concurrency a >? 16)) eqn:Hc.
  { intros E; inversion E; subst. split; [reflexivity|]. split; [reflexivity|].
    apply orb_true_iff in Hc. rewrite Z.ltb_lt, Z.gtb_gt in Hc. lia. }
  apply orb_false_iff in Hc. rewrite Z.ltb_ge, Z.gtb_ltb, Z.ltb_ge in Hc.
  assert (Hb : match Args.max_bytes a with
               | Some n => (n <? 0) = false
               | None => True
               end -> forall n, Args.max_bytes a = Some n -> 0 <= n).
  { intros H n E. rewrite E in H. now apply Z.ltb_ge in H. }
  assert (Hd : match Args.max_diff a with
               | Some d => PyFloat.lt d PyFloat.zero || PyFloat.lt PyFloat.one d = false
               | None => True
               end ->
               forall d, Args.max_diff a = Some d ->
                         PyFloat.lt d PyFloat.zero = false /\
                         PyFloat.lt PyFloat.one d = false).
  { intros H d E. rewrite E in H. now apply orb_false_iff in H. }
  destruct (Args.max_bytes a) as [n|];
    [destruct (n <? 0) eqn:Hn;
     [intros E; inversion E; subst; split; [reflexivity|];
      split; [reflexivity|now apply Z.ltb_lt]|]|].
  all: destruct (Args.max_diff a) as [d|];
    [destruct (PyFloat.lt d PyFloat.zero || PyFloat.lt PyFloat.one d) eqn:Hl;
     [intros E; inversion E; subst; split; [reflexivity|];
      split; [reflexivity|now apply orb_true_iff]|]|].
  all: destruct (existsb (str_eqb (Args.metric a)) accepted_metrics) eqn:Hm.
  all: intros E; inversion E; subst; split; [reflexivity|].
  all: try (split; [reflexivity|]; rewrite <- metric_check; congruence).
  all: apply metric_check in Hm.
  all: repeat split; try lia; try apply Hb; try apply Hd; auto.
Qed.

End Validation.

(** ** Reading the input *)

Lemma logged_logged s u v : logged (logged s u) v = logged s (u ++ v).
Proof. unfold logged; simpl. now rewrite app_assoc. Qed.

Lemma logged_nil s : logged s [] = s.
Proof. destruct s; unfold logged; simpl. now rewrite app_nil_r. Qed.

Lemma emit_logged e s : emit e s = (Return tt, logged s [e]).
Proof. reflexivity. Qed.

Section ReadInput.

Variable fs : filesystem.
Variable s : state.

Lemma read_bytes_empty :
  read_input fs (InBytes []) s = (Raise (ValueError msg_bytes_empty), s).
Proof. reflexivity. Qed.

Lemma read_bytes_too_large b :
  MAX_INPUT_SIZE < len b ->
  read_input fs (InBytes b) s
  = (Raise (ValueError (msg_bytes_too_large (len b))), s).
Proof.
  intros H. unfold read_input. run.
  assert (H0 : 0 < MAX_INPUT_SIZE) by reflexivity.
  replace (len b =? 0) with false by (symmetry; apply Z.eqb_neq; lia).
  replace (len b >? MAX_INPUT_SIZE) with true
    by (symmetry; apply Z.gtb_gt; lia).
  reflexivity.
Qed.

Lemma read_bytes_ok b :
  0 < len b <= MAX_INPUT_SIZE ->
  read_input fs (InBytes b) s = (Return b, s).
Proof.
  intros H. unfold read_input. run.
  replace (len b =? 0) with false by (symmetry; apply Z.eqb_neq; lia).
  replace (len b >? MAX_INPUT_SIZE) with false
    by (symmetry; rewrite Z.gtb_ltb; apply Z.ltb_ge; lia).
  reflexivity.
Qed.

Lemma read_path_missing p :
  fs p = None ->
  read_input fs (InPath p) s
  = (Raise (FileNotFoundError p), logged s [ev_exists p]).
Proof.
  intros H. unfold read_input, os_path_exists. run. rewrite H. reflexivity.
Qed.

Lemma read_path_empty p f :
  fs p = Some f -> st_size f = 0 ->
  read_input fs (InPath p) s
  = (Raise (ValueError (msg_file_empty p)),
     logged s [ev_exists p; ev_getsize p]).
Proof.
  intros H H0. unfold read_input, os_path_exists, os_path_getsize. run.
  rewrite H. cbn [negb]. cbv iota. cbn [trace heap next].
  rewrite H0. cbn [Z.eqb]. cbv iota.
  unfold logged. now rewrite <- app_assoc.
Qed.

Lemma read_path_too_large p f :
  fs p = Some f -> MAX_INPUT_SIZE < st_size f ->
  read_input fs (InPath p) s
  = (Raise (ValueError (msg_file_too_large (st_size f))),
     logged s [ev_exists p; ev_getsize p]).
Proof.
  intros H H0. unfold read_input, os_path_exists, os_path_getsize. run.
  rewrite H. cbn [negb]. cbv iota. cbn [trace heap next].
  assert (Hm : 0 < MAX_INPUT_SIZE) by reflexivity.
  replace (st_size f =? 0) with false by (symmetry; apply Z.eqb_neq; lia).
  replace (st_size f >? MAX_INPUT_SIZE) with true
    by (symmetry; apply Z.gtb_gt; lia).
  unfold logged. now rewrite <- app_assoc.
Qed.

Lemma read_path_ok p f :
  fs p = Some f -> 0 <> st_size f -> st_size f <= MAX_INPUT_SIZE ->
  read_input fs (InPath p) s
  = (Return (contents f), logged s [ev_exists p; ev_getsize p; ev_read p]).
Proof.
  intros H H0 H1.
  unfold read_input, os_path_exists, os_path_getsize, read_file. run.
  rewrite H. cbn [negb]. cbv iota. cbn [trace heap next].
  replace (st_size f =? 0) with false by (symmetry; apply Z.eqb_neq; lia).
  replace (st_size f >? MAX_INPUT_SIZE) with false
    by (symmetry; rewrite Z.gtb_ltb; apply Z.ltb_ge; lia).
  cbn [trace heap next].
  unfold logged. now rewrite <- !app_assoc.
Qed.

(** Whatever the input, reading it only touches the file system, never
    faults, and reads file contents only when it returns them. *)
Lemma read_input_cases i :
  exists out evs,
    read_input fs i s = (out, logged s evs) /\
    forallb is_fs_event evs = true /\
    out <> Fault /\
    (forall e, out = Raise e -> count is_file_read evs = 0%nat) /\
    (forall m, out = Raise (ValueError m) -> is_input_message m = true).
Proof.
  assert (Hm : 0 < MAX_INPUT_SIZE) by reflexivity.
  destruct i as [b|p].
  - exists (fst (read_input fs (InBytes b) s)), [].
    rewrite logged_nil.
    destruct (Z.eq_dec (len b) 0) as [E|E].
    { destruct b; [|discriminate E]. rewrite read_bytes_empty.
      repeat split; try discriminate; intros ? E0; inversion E0; reflexivity. }
    destruct (Z_lt_le_dec MAX_INPUT_SIZE (len b)) as [L|L].
    { rewrite read_bytes_too_large by exact L.
      repeat split; try discriminate; intros ? E0; inversion E0; reflexivity. }
    rewrite read_bytes_ok by (unfold len in *; lia).
    repeat split; try discriminate; intros ? E0; inversion E0; reflexivity.
  - destruct (fs p) as [f|] eqn:F.
    2:{ do 2 eexists. rewrite read_path_missing by exact F.
        repeat split; try discriminate; intros ? E0; inversion E0; reflexivity. }
    destruct (Z.eq_dec (st_size f) 0) as [E|E].
    { do 2 eexists. rewrite (read_path_empty p f F E).
      repeat split; try discriminate; intros ? E0; inversion E0; reflexivity. }
    destruct (Z_lt_le_dec MAX_INPUT_SIZE (st_size f)) as [L|L].
    { do 2 eexists. rewrite (read_path_too_large p f F L).
      repeat split; try discriminate; intros ? E0; inversion E0; reflexivity. }
    do 2 eexists. rewrite (read_path_ok p f F) by lia.
    repeat split; try discriminate; intros ? E0; inversion E0; reflexivity.
Qed.

Lemma read_input_raises i m s' :
  read_input fs i s = (Raise (ValueError m), s') ->
  is_input_message m = true.
Proof.
  intros H. destruct (read_input_cases i) as (out & evs & R & _ & _ & _ & C).
  rewrite H in R. inversion R; subst. now apply C.
Qed.

End ReadInput.

(** ** Marshalling and the native call *)

Lemma copy_out_raises r m :
  copy_out r = Raise (ValueError m) -> is_ctypes_message m = true.
Proof.
  unfold copy_out, copy_buffer, copy_text.
  repeat match goal with
         | |- context [if ?c then _ else _] => destruct c
         | |- context [match ?x with Some _ => _ | None => _ end] => destruct x
         | |- context [match ?x with [] => _ | _ :: _ => _ end] => destruct x
         end.
  all: intros E; inversion E; reflexivity.
Qed.

Lemma copy_out_no_fault r : copy_out r <> Fault.
Proof.
  unfold copy_out, copy_buffer, copy_text.
  repeat match goal with
         | |- context [if ?c then _ else _] => destruct c
         | |- context [match ?x with Some _ => _ | None => _ end] => destruct x
         | |- context [match ?x with [] => _ | _ :: _ => _ end] => destruct x
         end.
  all: discriminate.
Qed.

Section NativeCall.

Variable engine : FFI.engine.

Lemma marshal_cases a b s :
  marshal a b s = (Raise UnicodeEncodeError, s) \/
  exists o,
    marshal a b s = (Return o, s) /\
    FFI.input_bytes o = b /\
    FFI.concurrency o = FFI.c_uint 8 (Args.concurrency a) /\
    Utf8.encode (Args.metric a) = Some (FFI.metric_type o) /\
    match Args.formats a with
    | None => FFI.formats o = blit "jpeg,png,webp,avif"
    | Some l => Utf8.encode (join (lit ",") l) = Some (FFI.formats o)
    end /\
    FFI.max_diff o =
      match Args.max_diff a with
      | Some d => if PyFloat.truthy d then d else PyFloat.zero
      | None => PyFloat.zero
      end.
Proof.
  unfold marshal, encode_utf8. run.
  destruct (Args.formats a) as [l|];
    [destruct (Utf8.encode (join (lit ",") l)) eqn:Ef; [|now left]|].
  all: destruct (Args.cache_dir a) as [[|c d]|];
    try (destruct (Utf8.encode (c :: d)); [|now left]).
  all: destruct (Utf8.encode (Args.metric a)) eqn:Em; [|now left].
  all: right; eexists; split; [reflexivity|]; cbn; repeat split; auto.
Qed.

Lemma optimize_null o s :
  engine o = None ->
  pyjamaz_optimize engine o s = (Return None, logged s [ev_optimize o]).
Proof. intros H. unfold pyjamaz_optimize. run. now rewrite H. Qed.

Lemma optimize_handle o r s :
  engine o = Some r ->
  pyjamaz_optimize engine o s
  = (Return (Some (next s)),
     {| trace := trace s ++ [ev_optimize o];
        heap := (next s, r) :: heap s;
        next := N.succ (next s) |}).
Proof. intros H. unfold pyjamaz_optimize. run. now rewrite H. Qed.

End NativeCall.

(** ** Copying the result out *)

Ltac exec H :=
  repeat (cbv beta iota
            delta [bind ret raise raise_if emit fault load try_finally
                   pyjamaz_free_result slice decode_utf8 truthy_char_p];
          cbn [trace heap next]; rewrite ?H).

Lemma loads_then_free_split h evs :
  loads_then_free h evs = true ->
  exists loads, evs = loads ++ [ev_free h] /\ forallb (is_load h) loads = true.
Proof.
  induction evs as [|e rest IH]; [discriminate|].
  destruct rest as [|e' rest'].
  - cbn. destruct e; try discriminate. intros E.
    apply N.eqb_eq in E. subst. now exists [].
  - intros H. change (is_load h e && loads_then_free h (e' :: rest') = true) in H.
    apply andb_true_iff in H as [Hl Hr].
    destruct (IH Hr) as (loads & E & F).
    exists (e :: loads). rewrite E. split; [reflexivity|].
    cbn. now rewrite Hl, F.
Qed.

(** [extract] on a live handle: the outcome is [copy_out] of the struct, the
    events are field reads closed by the release, and the struct is gone
    from the native heap afterwards. *)
Lemma extract_run h r s :
  lookup h (heap s) = Some r ->
  exists evs,
    extract h s
    = (copy_out r,
       {| trace := trace s ++ evs; heap := remove h (heap s); next := next s |}) /\
    loads_then_free h evs = true /\
    copies_logged h r evs = true.
Proof.
  intros H. unfold copies_logged, copy_out, copy_buffer, copy_text, extract.
  assert (Hz : (FFI.output_len r >? 0) = true ->
               (FFI.output_len r <=? 0) = false).
  { rewrite Z.gtb_gt, Z.leb_gt. lia. }
  destruct (FFI.passed r =? 0) eqn:Hp;
    [| destruct (FFI.output_len r >? 0) eqn:Hn;
       [ specialize (Hz eq_refl);
         destruct (FFI.output_len r >? 2 ^ 63 - 1) eqn:Ho;
         destruct (FFI.output_bytes r) as [mem|] eqn:Hb |] ].
  all: destruct (FFI.format r) as [[|f0 fr]|] eqn:Hf.
  all: try destruct (Utf8.decode (f0 :: fr)) eqn:Hdf.
  all: destruct (FFI.error_message r) as [[|e0 er]|] eqn:He.
  all: try destruct (Utf8.decode (e0 :: er)) eqn:Hde.
  all: repeat (exec H;
               rewrite ?Hp, ?Hn, ?Ho, ?Hb, ?Hf, ?He, ?Hdf, ?Hde, ?Hz).
  all: rewrite <- ?app_assoc; cbn [app].
  all: eexists; split; [reflexivity|].
  all: cbn; rewrite ?N.eqb_refl; cbn; rewrite ?orb_true_r; split; reflexivity.
Qed.

(** ** Every call is one of the five runs *)

Lemma lookup_head h r hp : lookup h ((h, r) :: hp) = Some r.
Proof. cbn. now rewrite N.eqb_refl. Qed.

Lemma remove_head h r hp : remove h ((h, r) :: hp) = remove h hp.
Proof. unfold remove. cbn. now rewrite N.eqb_refl. Qed.

Theorem optimize_image_run fs engine a s out s' :
  optimize_image fs engine a s = (out, s') ->
  run_of fs engine a s out s'.
Proof.
  unfold optimize_image. run.
  destruct (validate_cases a s) as [V|[m V]]; rewrite V.
  2:{ intros E; inversion E; subst. now apply run_invalid. }
  destruct (read_input_cases fs s (Args.input_path a))
    as (ro & evs & R & Hfs & _ & Hread & _).
  rewrite R. destruct ro as [b|e|].
  - destruct (marshal_cases a b (logged s evs)) as [Mr|(o & Mr & _)]; rewrite Mr.
    { intros E; inversion E; subst. eapply run_unencodable; eauto. }
    destruct (engine o) as [r|] eqn:En.
    + rewrite (optimize_handle engine o r _ En). cbn [trace heap next logged].
      destruct (extract_run (next s) r
                  {| trace := (trace s ++ evs) ++ [ev_optimize o];
                     heap := (next s, r) :: heap s;
                     next := N.succ (next s) |}) as (loads & X & L & C).
      { apply lookup_head. }
      rewrite X. cbn [trace heap next]. rewrite remove_head.
      intros E; inversion E; subst.
      replace (((trace s ++ evs) ++ [ev_optimize o]) ++ loads)
        with (trace s ++ (evs ++ ev_optimize o :: loads))
        by (now rewrite <- !app_assoc).
      eapply (run_handle fs engine a s b evs o r loads); eauto.
    + rewrite (optimize_null engine o _ En). rewrite logged_logged.
      intros E; inversion E; subst. eapply run_null; eauto.
  - intros E; inversion E; subst. eapply run_unreadable; eauto.
  - intros E. exfalso. destruct (read_input_cases fs s (Args.input_path a))
      as (ro & evs' & R' & _ & F & _ & _). rewrite R in R'. inversion R'. congruence.
Qed.

(** ** Event lists *)

Lemma requests_app u v : requests (u ++ v) = requests u ++ requests v.
Proof.
  induction u as [|e u IH]; [reflexivity|].
  destruct e; cbn; now rewrite IH.
Qed.

Lemma count_app p u v : count p (u ++ v) = (count p u + count p v)%nat.
Proof. unfold count. now rewrite filter_app, length_app. Qed.

Lemma fs_events_requests evs :
  forallb is_fs_event evs = true -> requests evs = [].
Proof.
  induction evs as [|e evs IH]; [reflexivity|].
  cbn. intros H. apply andb_true_iff in H as [He Hr].
  destruct e; try discriminate; auto.
Qed.

Lemma fs_events_no_call evs :
  forallb is_fs_event evs = true -> count is_native_call evs = 0%nat.
Proof.
  induction evs as [|e evs IH]; [reflexivity|].
  cbn. intros H. apply andb_true_iff in H as [He Hr].
  destruct e; try discriminate; cbn; auto.
Qed.

Lemma loads_requests h loads :
  forallb (is_load h) loads = true -> requests loads = [].
Proof.
  induction loads as [|e l IH]; [reflexivity|].
  cbn. intros H. apply andb_true_iff in H as [He Hr].
  destruct e; try discriminate; auto.
Qed.

Lemma loads_count_free h loads :
  forallb (is_load h) loads = true -> count (is_free h) loads = 0%nat.
Proof.
  induction loads as [|e l IH]; [reflexivity|].
  cbn. intros H. apply andb_true_iff in H as [He Hr].
  destruct e; try discriminate; cbn; auto.
Qed.

Lemma loads_then_free_requests h evs :
  loads_then_free h evs = true -> requests evs = [].
Proof.
  intros H. destruct (loads_then_free_split h evs H) as (l & -> & F).
  rewrite requests_app, (loads_requests h l F). reflexivity.
Qed.

(** The request structs of a run that reached the engine: exactly one. *)
Lemma requests_of_call h evs o loads :
  forallb is_fs_event evs = true ->
  loads_then_free h loads = true ->
  requests (evs ++ ev_optimize o :: loads) = [o].
Proof.
  intros F L. rewrite requests_app, (fs_events_requests evs F). cbn.
  now rewrite (loads_then_free_requests h loads L).
Qed.

Lemma requests_of_null evs o :
  forallb is_fs_event evs = true ->
  requests (evs ++ [ev_optimize o]) = [o].
Proof.
  intros F. now rewrite requests_app, (fs_events_requests evs F).
Qed.

Lemma marshal_fields a b s o s' :
  marshal a b s = (Return o, s') ->
  FFI.input_bytes o = b /\
  FFI.concurrency o = FFI.c_uint 8 (Args.concurrency a) /\
  Utf8.encode (Args.metric a) = Some (FFI.metric_type o) /\
  match Args.formats a with
  | None => FFI.formats o = blit "jpeg,png,webp,avif"
  | Some l => Utf8.encode (join (lit ",") l) = Some (FFI.formats o)
  end /\
  FFI.max_diff o =
    match Args.max_diff a with
    | Some d => if PyFloat.truthy d then d else PyFloat.zero
    | None => PyFloat.zero
    end.
Proof.
  intros H. destruct (marshal_cases a b s) as [E|(o' & E & F)];
    rewrite H in E; inversion E; subst. exact F.
Qed.

(** ** Properties of [optimize_image] *)

(** C3.  A [concurrency] below 1 or above 16 makes [optimize_image] raise
    ValueError with the world untouched: nothing was read and the engine
    was not called.  A [concurrency] from 1 to 16 is never the reason of a
    rejection, and every request struct handed to the engine carries it
    unchanged. *)
Theorem concurrency_range_checked fs engine a s :
  let c := Args.concurrency a in
  (c < 1 \/ 16 < c ->
   optimize_image fs engine a s = (Raise (ValueError (msg_concurrency c)), s))
  /\
  (1 <= c <= 16 ->
   forall out s',
     optimize_image fs engine a s = (out, s') ->
     (forall c', out <> Raise (ValueError (msg_concurrency c'))) /\
     exists evs,
       trace s' = trace s ++ evs /\
       forall o, In o (requests evs) -> FFI.concurrency o = c).
Proof.
  intros c. split.
  - intros H. unfold optimize_image. run.
    now rewrite (validate_concurrency_rejected a s H).
  - intros Hc out s' E.
    assert (Hw : FFI.c_uint 8 c = c)
      by (unfold FFI.c_uint; apply Z.mod_small; change (2 ^ 8) with 256; lia).
    apply optimize_image_run in E.
    inversion E as [m V|e evs V R F N|b evs V R F Mr|b evs o V R F Mr En
                   |b evs o r loads V R F Mr En L C]; subst.
    + split.
      * intros c' X. inversion X; subst.
        apply validate_inv in V as [_ [Ec V]]. subst c c'. lia.
      * exists []. rewrite app_nil_r. split; [reflexivity|]. intros o [].
    + split.
      * intros c' X. inversion X; subst.
        apply read_input_raises in R. discriminate.
      * exists evs. split; [reflexivity|].
        rewrite (fs_events_requests evs F). intros o [].
    + split; [discriminate|].
      exists evs. split; [reflexivity|].
      rewrite (fs_events_requests evs F). intros o [].
    + split; [discriminate|].
      exists (evs ++ [ev_optimize o]). split; [reflexivity|].
      rewrite (requests_of_null evs o F). intros o' [<-|[]].
      apply marshal_fields in Mr as (_ & Hk & _). now rewrite Hk.
    + split.
      * intros c' X. apply copy_out_raises in X. discriminate.
      * exists (evs ++ ev_optimize o :: loads). split; [reflexivity|].
        rewrite (requests_of_call _ evs o loads F L). intros o' [<-|[]].
        apply marshal_fields in Mr as (_ & Hk & _). now rewrite Hk.
Qed.

Lemma optimize_image_rejected_args fs engine a s e s' :
  validate a s = (Raise e, s') ->
  optimize_image fs engine a s = (Raise e, s').
Proof. intros H. unfold optimize_image. run. now rewrite H. Qed.

Lemma optimize_image_rejected_input fs engine a s e s' :
  validate a s = (Return tt, s) ->
  read_input fs (Args.input_path a) s = (Raise e, s') ->
  optimize_image fs engine a s = (Raise e, s').
Proof. intros V R. unfold optimize_image. run. now rewrite V, R. Qed.

(** C7.  A [metric] other than 'dssim', 'ssimulacra2' and 'none' makes
    [optimize_image] raise ValueError with the world untouched, so before
    any read and any native call.  Each of the three tokens is never the
    reason of a rejection, and reaches the engine as its UTF-8 bytes. *)
Theorem metric_token_checked fs engine a s :
  let m := Args.metric a in
  let accepted := m = lit "dssim" \/ m = lit "ssimulacra2" \/ m = lit "none" in
  (~ accepted ->
   exists msg, optimize_image fs engine a s = (Raise (ValueError msg), s))
  /\
  (accepted ->
   forall out s',
     optimize_image fs engine a s = (out, s') ->
     (forall m', out <> Raise (ValueError (msg_metric m'))) /\
     exists evs,
       trace s' = trace s ++ evs /\
       forall o, In o (requests evs) ->
                 Utf8.encode m = Some (FFI.metric_type o)).
Proof.
  intros m accepted.
  assert (Hin : accepted <-> In m accepted_metrics).
  { unfold accepted, accepted_metrics. cbn [In]. intuition congruence. }
  split.
  - intros H. destruct (validate_cases a s) as [V|[msg V]].
    + apply validate_inv in V as (_ & _ & _ & _ & V). now apply Hin in V.
    + exists msg. now apply optimize_image_rejected_args.
  - intros Hm out s' E. apply Hin in Hm.
    apply optimize_image_run in E.
    inversion E as [msg V|e evs V R F N|b evs V R F Mr|b evs o V R F Mr En
                   |b evs o r loads V R F Mr En L C]; subst.
    + split.
      * intros m' X. inversion X; subst.
        apply validate_inv in V as [_ [Ec V]]. subst m'. contradiction.
      * exists []. rewrite app_nil_r. split; [reflexivity|]. intros o [].
    + split.
      * intros m' X. inversion X; subst.
        apply read_input_raises in R. discriminate.
      * exists evs. split; [reflexivity|].
        rewrite (fs_events_requests evs F). intros o [].
    + split; [discriminate|].
      exists evs. split; [reflexivity|].
      rewrite (fs_events_requests evs F). intros o [].
    + split; [discriminate|].
      exists (evs ++ [ev_optimize o]). split; [reflexivity|].
      rewrite (requests_of_null evs o F). intros o' [<-|[]].
      now apply marshal_fields in Mr as (_ & _ & Hk & _).
    + split.
      * intros m' X. apply copy_out_raises in X. discriminate.
      * exists (evs ++ ev_optimize o :: loads). split; [reflexivity|].
        rewrite (requests_of_call _ evs o loads F L). intros o' [<-|[]].
        now apply marshal_fields in Mr as (_ & _ & Hk & _).
Qed.

(** C5.  An empty input, be it a bytes object of length zero or the path of
    a file of size zero, makes [optimize_image] raise ValueError; the events
    up to there hold no native call and no read of file contents.  The
    failure is an exception, not a returned result. *)
Theorem empty_input_rejected fs engine a s :
  (Args.input_path a = InBytes [] \/
   exists p f, Args.input_path a = InPath p /\ fs p = Some f /\ st_size f = 0) ->
  exists msg evs,
    optimize_image fs engine a s = (Raise (ValueError msg), logged s evs) /\
    count is_native_call evs = 0%nat /\
    count is_file_read evs = 0%nat.
Proof.
  intros H. destruct (validate_cases a s) as [V|[msg V]].
  2:{ exists msg, []. rewrite logged_nil.
      split; [now apply optimize_image_rejected_args|]. split; reflexivity. }
  destruct H as [H|(p & f & H & Hf & Hz)].
  - exists msg_bytes_empty, []. rewrite logged_nil.
    split; [|split; reflexivity].
    apply optimize_image_rejected_input; [exact V|].
    rewrite H. apply read_bytes_empty.
  - exists (msg_file_empty p), [ev_exists p; ev_getsize p].
    split; [|split; reflexivity].
    apply optimize_image_rejected_input; [exact V|].
    rewrite H. now apply read_path_empty with (f := f).
Qed.

(** C9.  An input above 100 MiB, be it a bytes object or a file whose size
    the file system reports, makes [optimize_image] raise ValueError; the
    events up to there hold no read of file contents and no native call. *)
Theorem oversized_input_rejected fs engine a s :
  ((exists b, Args.input_path a = InBytes b /\ 100 * 1024 * 1024 < len b) \/
   (exists p f, Args.input_path a = InPath p /\ fs p = Some f /\
                100 * 1024 * 1024 < st_size f)) ->
  exists msg evs,
    optimize_image fs engine a s = (Raise (ValueError msg), logged s evs) /\
    count is_file_read evs = 0%nat /\
    count is_native_call evs = 0%nat.
Proof.
  intros H. destruct (validate_cases a s) as [V|[msg V]].
  2:{ exists msg, []. rewrite logged_nil.
      split; [now apply optimize_image_rejected_args|]. split; reflexivity. }
  destruct H as [(b & H & Hb)|(p & f & H & Hf & Hz)].
  - exists (msg_bytes_too_large (len b)), []. rewrite logged_nil.
    split; [|split; reflexivity].
    apply optimize_image_rejected_input; [exact V|].
    rewrite H. now apply read_bytes_too_large.
  - exists (msg_file_too_large (st_size f)), [ev_exists p; ev_getsize p].
    split; [|split; reflexivity].
    apply optimize_image_rejected_input; [exact V|].
    rewrite H. now apply read_path_too_large.
Qed.

(** ** What the copy holds *)

Lemma copy_text_decodable v : decodable v -> copy_text v = Return (text_of v).
Proof.
  destruct v as [[|x l]|]; cbn; try reflexivity.
  intros H. change (Utf8.decode (x :: l) <> None) in H.
  change (match Utf8.decode (x :: l) with
          | Some t => Return (Some t)
          | None => Raise UnicodeDecodeError
          end = Return (Utf8.decode (x :: l))).
  destruct (Utf8.decode (x :: l)); congruence.
Qed.

Lemma text_of_nonempty v b :
  v = Some b -> b <> [] -> decodable v ->
  exists t, text_of v = Some t /\ t <> [].
Proof.
  intros -> Hb Hd. destruct b as [|x l]; [congruence|].
  unfold decodable in Hd. unfold text_of.
  destruct (Utf8.decode (x :: l)) as [t|] eqn:E; [|congruence].
  exists t. split; [reflexivity|].
  apply (decode_nonempty (x :: l) t E). discriminate.
Qed.

(** A struct with [passed = 0] and well-formed text is copied into a value
    with no output bytes. *)
Lemma copy_out_failed r :
  FFI.passed r = 0 ->
  decodable (FFI.format r) -> decodable (FFI.error_message r) ->
  copy_out r
  = Return {| output_buffer := [];
              format := match text_of (FFI.format r) with
                        | Some t => t
                        | None => []
                        end;
              diff_value := FFI.diff_value r;
              passed := false;
              error_message := text_of (FFI.error_message r) |}.
Proof.
  intros Hp Hf He. unfold copy_out, copy_buffer.
  rewrite Hp. cbn [Z.eqb negb].
  now rewrite (copy_text_decodable _ Hf), (copy_text_decodable _ He).
Qed.

Lemma text_of_not_empty v : text_of v <> Some [].
Proof.
  destruct v as [[|x l]|]; cbn; try discriminate.
  change (Utf8.decode (x :: l) <> Some []).
  intros E. apply (decode_nonempty (x :: l) [] E); [discriminate|reflexivity].
Qed.

(** What a returned value says about the struct it was copied from. *)
Lemma copy_out_returned r res :
  copy_out r = Return res ->
  passed res = negb (FFI.passed r =? 0) /\
  diff_value res = FFI.diff_value r /\
  (passed res = false -> output_buffer res = []) /\
  (passed res = true -> 0 < FFI.output_len r -> output_buffer res <> []) /\
  error_message res = text_of (FFI.error_message r) /\
  decodable (FFI.error_message r).
Proof.
  unfold copy_out. intros H.
  destruct (copy_buffer r) as [buf| |] eqn:Hb; try discriminate.
  destruct (copy_text (FFI.format r)) as [f| |] eqn:Hf; try discriminate.
  destruct (copy_text (FFI.error_message r)) as [e| |] eqn:He; try discriminate.
  inversion H; subst; cbn. clear H.
  split; [reflexivity|]. split; [reflexivity|].
  unfold copy_buffer in Hb.
  destruct (FFI.passed r =? 0) eqn:Hp; cbn.
  - inversion Hb; subst. split; [reflexivity|]. split; [discriminate|].
    unfold copy_text in He. unfold text_of, decodable.
    destruct (FFI.error_message r) as [[|x l]|];
      try (split; [congruence|]; cbn; try exact I; congruence).
    destruct (Utf8.decode (x :: l)); split; congruence.
  - split; [discriminate|]. split.
    + intros _ Hn.
      replace (FFI.output_len r >? 0) with true in Hb
        by (symmetry; apply Z.gtb_gt; lia).
      destruct (FFI.output_len r >? 2 ^ 63 - 1); [discriminate|].
      destruct (FFI.output_bytes r) as [mem|]; [|discriminate].
      inversion Hb; subst.
      destruct (Z.to_nat (FFI.output_len r)) as [|k] eqn:Hk; [lia|].
      cbn. discriminate.
    + unfold copy_text in He. unfold text_of, decodable.
      destruct (FFI.error_message r) as [[|x l]|];
        try (split; [congruence|]; cbn; try exact I; congruence).
      destruct (Utf8.decode (x :: l)); split; congruence.
Qed.

Lemma app_self_nil {A} (l e : list A) : l = l ++ e -> e = [].
Proof.
  intros H. rewrite <- (app_nil_r l) in H at 1. apply app_inv_head in H.
  now symmetry.
Qed.

(** A run whose events hold a request the engine answered with [r] is the
    run that copied [r]. *)
Lemma run_with_struct fs engine a s out s' evs o r :
  optimize_image fs engine a s = (out, s') ->
  trace s' = trace s ++ evs ->
  In o (requests evs) ->
  engine o = Some r ->
  out = copy_out r /\
  exists pre loads,
    evs = pre ++ ev_optimize o :: loads /\
    forallb is_fs_event pre = true /\
    loads_then_free (next s) loads = true /\
    copies_logged (next s) r loads = true /\
    heap s' = remove (next s) (heap s).
Proof.
  intros E T I En. apply optimize_image_run in E.
  inversion E as [m V|e evs0 V R F N|b evs0 V R F Mr|b evs0 o0 V R F Mr En0
                 |b evs0 o0 r0 loads V R F Mr En0 L C]; subst.
  - apply app_self_nil in T. subst. destruct I.
  - cbn in T. apply app_inv_head in T. subst.
    rewrite (fs_events_requests _ F) in I. destruct I.
  - cbn in T. apply app_inv_head in T. subst.
    rewrite (fs_events_requests _ F) in I. destruct I.
  - cbn in T. apply app_inv_head in T. subst.
    rewrite (requests_of_null _ _ F) in I. destruct I as [<-|[]]. congruence.
  - cbn in T. apply app_inv_head in T. subst.
    rewrite (requests_of_call _ _ _ _ F L) in I. destruct I as [<-|[]].
    assert (r0 = r) by congruence. subst.
    split; [reflexivity|]. exists evs0, loads. cbn. auto.
Qed.

Lemma run_with_null fs engine a s out s' evs o :
  optimize_image fs engine a s = (out, s') ->
  trace s' = trace s ++ evs ->
  In o (requests evs) ->
  engine o = None ->
  out = Return null_result /\
  exists pre, evs = pre ++ [ev_optimize o] /\ forallb is_fs_event pre = true.
Proof.
  intros E T I En. apply optimize_image_run in E.
  inversion E as [m V|e evs0 V R F N|b evs0 V R F Mr|b evs0 o0 V R F Mr En0
                 |b evs0 o0 r0 loads V R F Mr En0 L C]; subst.
  - apply app_self_nil in T. subst. destruct I.
  - cbn in T. apply app_inv_head in T. subst.
    rewrite (fs_events_requests _ F) in I. destruct I.
  - cbn in T. apply app_inv_head in T. subst.
    rewrite (fs_events_requests _ F) in I. destruct I.
  - cbn in T. apply app_inv_head in T. subst.
    rewrite (requests_of_null _ _ F) in I. destruct I as [<-|[]].
    split; [reflexivity|]. now exists evs0.
  - cbn in T. apply app_inv_head in T. subst.
    rewrite (requests_of_call _ _ _ _ F L) in I. destruct I as [<-|[]].
    congruence.
Qed.

(** C1, as the code has it.  When the engine answers with a struct whose
    [passed] is 0 and whose text fields are well-formed, [optimize_image]
    returns a value with [passed = False], the engine's format and diff
    value, the engine's message (non-empty whenever the engine's is) and an
    empty [output_buffer]: the bytes of the candidate are not copied. *)
Theorem constraint_failure_reported fs engine a s out s' evs o r :
  optimize_image fs engine a s = (out, s') ->
  trace s' = trace s ++ evs ->
  In o (requests evs) ->
  engine o = Some r ->
  FFI.passed r = 0 ->
  decodable (FFI.format r) ->
  decodable (FFI.error_message r) ->
  out = Return {| output_buffer := [];
                  format := match text_of (FFI.format r) with
                            | Some t => t
                            | None => []
                            end;
                  diff_value := FFI.diff_value r;
                  passed := false;
                  error_message := text_of (FFI.error_message r) |}
  /\
  (forall b, FFI.error_message r = Some b -> b <> [] ->
             exists t, text_of (FFI.error_message r) = Some t /\ t <> []).
Proof.
  intros E T I En Hp Hf He.
  destruct (run_with_struct _ _ _ _ _ _ _ _ _ E T I En) as [-> _].
  split; [now apply copy_out_failed|].
  intros b Hb Hn. now apply text_of_nonempty with (b := b).
Qed.


(** C4.  Against an engine that keeps the contract of its result struct,
    every value [optimize_image] returns obeys: if [passed] is true the
    output buffer is non-empty; if [passed] is false the value holds no
    candidate and its error message is a non-empty text. *)
Theorem returned_result_invariant fs engine a s res s' :
  engine_contract engine ->
  optimize_image fs engine a s = (Return res, s') ->
  (passed res = true -> output_buffer res <> []) /\
  (passed res = false ->
   output_buffer res = [] /\
   exists m, error_message res = Some m /\ m <> []).
Proof.
  intros K E. apply optimize_image_run in E.
  inversion E as [| | |b evs o V R F Mr En
                 |b evs o r loads V R F Mr En L C]; subst.
  - split; [discriminate|]. intros _. split; [reflexivity|].
    eexists. split; [reflexivity|]. discriminate.
  - match goal with X : copy_out r = Return res |- _ => rename X into Hc end.
    destruct (K o r En) as [Kp Kf].
    apply copy_out_returned in Hc as (Hp & _ & Hb0 & Hb1 & He & Hd).
    split.
    + intros P. apply Hb1; [exact P|]. apply Kp.
      rewrite P in Hp. intros Z0. rewrite Z0 in Hp. discriminate.
    + intros P. split; [now apply Hb0|].
      rewrite P in Hp. symmetry in Hp. apply negb_false_iff in Hp.
      apply Z.eqb_eq in Hp. destruct (Kf Hp) as (eb & Eb & Nb).
      rewrite He. now apply text_of_nonempty with (b := eb).
Qed.

(** ** Release of the result struct *)

Lemma lookup_remove h hp : lookup h (remove h hp) = None.
Proof.
  induction hp as [|[k r] hp IH]; [reflexivity|].
  unfold remove in *. cbn. destruct (N.eqb k h) eqn:E; cbn; [exact IH|].
  now rewrite E.
Qed.

Lemma fs_events_count_free h evs :
  forallb is_fs_event evs = true -> count (is_free h) evs = 0%nat.
Proof.
  induction evs as [|e evs IH]; [reflexivity|].
  cbn. intros H. apply andb_true_iff in H as [He Hr].
  destruct e; try discriminate; cbn; auto.
Qed.

Lemma reads_before_free h f loads :
  reads h f (loads ++ [ev_free h]) = reads h f loads.
Proof.
  unfold reads. rewrite existsb_app. cbn. now rewrite !orb_false_r.
Qed.

(** C8.  When the native call returned a handle, the events of the call are:
    file-system events, the native call, reads of the struct's fields through
    the handle, and last one release of the handle.  The handle is released
    exactly once whether the copy returned or raised, nothing is read through
    it afterwards, and when a value is returned its format, error message
    and output bytes were read before the release. *)
Theorem result_released_exactly_once fs engine a s out s' evs o r :
  optimize_image fs engine a s = (out, s') ->
  trace s' = trace s ++ evs ->
  In o (requests evs) ->
  engine o = Some r ->
  let h := next s in
  exists pre loads,
    evs = pre ++ ev_optimize o :: loads ++ [ev_free h] /\
    forallb is_fs_event pre = true /\
    forallb (is_load h) loads = true /\
    count (is_free h) evs = 1%nat /\
    out <> Fault /\
    lookup h (heap s') = None /\
    (forall res,
       out = Return res ->
       reads h FFI.f_format loads = true /\
       reads h FFI.f_error_message loads = true /\
       (output_buffer res <> [] -> reads h FFI.f_output_bytes loads = true)).
Proof.
  intros E T I En h. subst h.
  destruct (run_with_struct _ _ _ _ _ _ _ _ _ E T I En)
    as (-> & pre & evs1 & -> & F & L & C & Hh).
  destruct (loads_then_free_split _ _ L) as (loads & -> & Fl).
  exists pre, loads.
  split; [reflexivity|]. split; [exact F|]. split; [exact Fl|].
  split.
  { rewrite count_app, (fs_events_count_free (next s) pre F).
    change (ev_optimize o :: loads ++ [ev_free (next s)])
      with ([ev_optimize o] ++ loads ++ [ev_free (next s)]).
    rewrite !count_app, (loads_count_free (next s) loads Fl).
    unfold count. cbn. now rewrite N.eqb_refl. }
  split; [apply copy_out_no_fault|].
  split; [rewrite Hh; apply lookup_remove|].
  intros res Hr. unfold copies_logged in C. rewrite Hr in C.
  rewrite !reads_before_free in C.
  apply andb_true_iff in C as [C Cb]. apply andb_true_iff in C as [Cf Ce].
  split; [exact Cf|]. split; [exact Ce|].
  intros Hn. apply orb_true_iff in Cb as [Cb|Cb]; [exact Cb|].
  destruct (output_buffer res); [congruence|discriminate].
Qed.

(** ** The formats argument *)




(** ** The bound on max_diff *)

Lemma compare_flip (x y : PyFloat.float) :
  SFcompare y x
  = match SFcompare x y with Some c => Some (CompOpp c) | None => None end.
Proof.
  destruct x as [s|s| |s m e], y as [s'|s'| |s' m' e']; cbn; try reflexivity;
    try (destruct s; reflexivity); try (destruct s'; reflexivity);
    try (destruct s, s'; reflexivity).
  destruct s, s'; try reflexivity.
  - rewrite (Z.compare_antisym e e'). destruct (e ?= e'); cbn; try reflexivity.
    pose proof (Pos.compare_cont_antisym m' m Eq) as H. cbn in H.
    rewrite H. now rewrite CompOpp_involutive.
  - rewrite (Z.compare_antisym e e'). destruct (e ?= e'); cbn; try reflexivity.
    pose proof (Pos.compare_cont_antisym m m' Eq) as H. cbn in H.
    now rewrite H.
Qed.

Lemma le_not_gt x y : PyFloat.le x y = true -> PyFloat.lt y x = false.
Proof.
  unfold PyFloat.le, PyFloat.lt, SFleb, SFltb. rewrite (compare_flip x y).
  destruct (SFcompare x y) as [[| |]|]; cbn; congruence.
Qed.

(** Two floats neither of which is NaN are comparable. *)
Lemma not_gt_le x y :
  PyFloat.is_nan x = false -> PyFloat.is_nan y = false ->
  PyFloat.lt y x = false -> PyFloat.le x y = true.
Proof.
  unfold PyFloat.le, PyFloat.lt, SFleb, SFltb. rewrite (compare_flip x y).
  intros Hx Hy.
  destruct (SFcompare x y) as [[| |]|] eqn:E; cbn; try congruence.
  destruct x, y; cbn in *; try discriminate;
    destruct s; try discriminate; try destruct s0; discriminate.
Qed.

(** The guard of line 217 lets through the floats of the closed interval
    from 0.0 to 1.0 and, both comparisons being false on it, NaN. *)
Lemma max_diff_guard d :
  PyFloat.lt d PyFloat.zero || PyFloat.lt PyFloat.one d = false <->
  PyFloat.is_nan d = true \/
  (PyFloat.le PyFloat.zero d = true /\ PyFloat.le d PyFloat.one = true).
Proof.
  rewrite orb_false_iff. split.
  - intros [H0 H1]. destruct (PyFloat.is_nan d) eqn:N; [now left|right].
    split; now apply not_gt_le.
  - intros [N|[H0 H1]].
    + destruct d; try discriminate. split; reflexivity.
    + split; now apply le_not_gt.
Qed.

(** A [max_diff] below 0.0 or above 1.0 makes [optimize_image] raise
    ValueError with the world untouched; a [max_diff] from 0.0 to 1.0 is
    never the reason of a rejection. *)
Theorem max_diff_bounds_checked fs engine a s d :
  Args.max_diff a = Some d ->
  (PyFloat.lt d PyFloat.zero = true \/ PyFloat.lt PyFloat.one d = true ->
   exists msg, optimize_image fs engine a s = (Raise (ValueError msg), s))
  /\
  (PyFloat.le PyFloat.zero d = true /\ PyFloat.le d PyFloat.one = true ->
   forall out s',
     optimize_image fs engine a s = (out, s') ->
     forall d', out <> Raise (ValueError (msg_max_diff d'))).
Proof.
  intros Hd. split.
  - intros H. destruct (validate_cases a s) as [V|[msg V]].
    + apply validate_inv in V as (_ & _ & _ & V & _).
      destruct (V d Hd) as [V0 V1]. destruct H; congruence.
    + exists msg. now apply optimize_image_rejected_args.
  - intros [H0 H1] out s' E d' X. subst out.
    apply le_not_gt in H0, H1.
    apply optimize_image_run in E.
    inversion E as [m V|e evs V R F N|b evs V R F Mr|b evs o V R F Mr En
                   |b evs o r loads V R F Mr En L C]; subst.
    + apply validate_inv in V as [_ [V [Vl|Vl]]];
        rewrite Hd in V; inversion V; subst; congruence.
    + apply read_input_raises in R. discriminate.
    + match goal with X : copy_out _ = _ |- _ =>
        apply copy_out_raises in X; discriminate end.
Qed.

(** C10.  [max_diff=float('nan')] passes the check of line 217: both
    comparisons are false on NaN, the call goes on to the engine, and the
    request struct carries NaN as its max_diff. *)
Theorem max_diff_nan_accepted :
  PyFloat.lt PyFloat.nan PyFloat.zero || PyFloat.lt PyFloat.one PyFloat.nan
  = false /\
  PyFloat.le PyFloat.zero PyFloat.nan = false /\
  fst (optimize_image Sample.no_files Sample.null_engine
         (Sample.call_max_diff PyFloat.nan) initial)
  = Return null_result /\
  map FFI.max_diff
      (requests (trace (snd (optimize_image Sample.no_files Sample.null_engine
                               (Sample.call_max_diff PyFloat.nan) initial))))
  = [PyFloat.nan].
Proof. repeat split; reflexivity. Qed.

(** ** The claims at concrete calls *)

(** [optimize_image(jpeg, max_bytes=10)] against an engine that reports a
    constraint failure with a three-byte candidate: the value returned holds
    no bytes. *)
Lemma best_effort_bytes_dropped :
  FFI.passed Sample.constraint_failure = 0 /\
  FFI.output_len Sample.constraint_failure = 3 /\
  ~ (exists res s',
       optimize_image Sample.no_files Sample.failing_engine
                      Sample.call_max_bytes initial = (Return res, s') /\
       passed res = false /\
       output_buffer res <> []).
Proof.
  split; [reflexivity|]. split; [reflexivity|].
  intros (res & s' & E & _ & N). vm_compute in E. inversion E; subst.
  now apply N.
Qed.

Lemma constraint_failure_reported_witness :
  fst (optimize_image Sample.no_files Sample.failing_engine
                      Sample.call_max_bytes initial)
  = Return {| output_buffer := [];
              format := lit "jpeg";
              diff_value := PyFloat.zero;
              passed := false;
              error_message := Some (lit "max_bytes exceeded") |}.
Proof.
  refine (proj1 (constraint_failure_reported
                   Sample.no_files Sample.failing_engine Sample.call_max_bytes
                   initial _ _ _
                   (Sample.request 10 (blit "dssim") (blit "jpeg,png,webp,avif") 4)
                   Sample.constraint_failure
                   (surjective_pairing _) _ _ _ _ _ _)).
  - vm_compute. reflexivity.
  - vm_compute. left. reflexivity.
  - reflexivity.
  - reflexivity.
  - vm_compute. discriminate.
  - vm_compute. discriminate.
Defined.


Lemma concurrency_range_checked_witness :
  optimize_image Sample.no_files Sample.working_engine
                 (Sample.call (lit "dssim") 17) initial
  = (Raise (ValueError (msg_concurrency 17)), initial)
  /\
  (forall out s',
     optimize_image Sample.no_files Sample.working_engine
                    (Sample.call (lit "dssim") 16) initial = (out, s') ->
     (forall c', out <> Raise (ValueError (msg_concurrency c'))) /\
     exists evs,
       trace s' = trace initial ++ evs /\
       forall o, In o (requests evs) -> FFI.concurrency o = 16).
Proof.
  split.
  - apply (proj1 (concurrency_range_checked
                    Sample.no_files Sample.working_engine
                    (Sample.call (lit "dssim") 17) initial)).
    right. reflexivity.
  - apply (proj2 (concurrency_range_checked
                    Sample.no_files Sample.working_engine
                    (Sample.call (lit "dssim") 16) initial)).
    split; discriminate.
Defined.

Lemma returned_result_invariant_witness :
  exists res,
    fst (optimize_image Sample.no_files Sample.working_engine
                        (Sample.call (lit "none") 4) initial) = Return res /\
    passed res = true /\
    output_buffer res <> [].
Proof.
  eexists. split; [vm_compute; reflexivity|]. split; [reflexivity|].
  refine (proj1 (returned_result_invariant
                   Sample.no_files Sample.working_engine
                   (Sample.call (lit "none") 4) initial _ _ _ _) _).
  - intros o r E. inversion E; subst. split.
    + intros _. reflexivity.
    + intros H. discriminate H.
  - vm_compute. reflexivity.
  - reflexivity.
Defined.

Lemma empty_input_rejected_witness :
  (exists msg evs,
     optimize_image Sample.no_files Sample.working_engine
                    (Sample.call_input (InBytes [])) initial
     = (Raise (ValueError msg), logged initial evs) /\
     count is_native_call evs = 0%nat /\
     count is_file_read evs = 0%nat)
  /\
  (exists msg evs,
     optimize_image (Sample.one_file Sample.empty_file) Sample.working_engine
                    (Sample.call_input (InPath (lit "in.jpg"))) initial
     = (Raise (ValueError msg), logged initial evs) /\
     count is_native_call evs = 0%nat /\
     count is_file_read evs = 0%nat).
Proof.
  split.
  - apply empty_input_rejected. left. reflexivity.
  - apply empty_input_rejected. right.
    exists (lit "in.jpg"), Sample.empty_file.
    split; [reflexivity|]. split; reflexivity.
Defined.



Lemma metric_token_checked_witness :
  (exists msg,
     optimize_image Sample.no_files Sample.working_engine
                    (Sample.call (lit "invalid_metric") 4) initial
     = (Raise (ValueError msg), initial))
  /\
  (forall out s',
     optimize_image Sample.no_files Sample.working_engine
                    (Sample.call (lit "ssimulacra2") 4) initial = (out, s') ->
     (forall m', out <> Raise (ValueError (msg_metric m'))) /\
     exists evs,
       trace s' = trace initial ++ evs /\
       forall o, In o (requests evs) ->
                 Utf8.encode (lit "ssimulacra2") = Some (FFI.metric_type o)).
Proof.
  split.
  - apply (proj1 (metric_token_checked
                    Sample.no_files Sample.working_engine
                    (Sample.call (lit "invalid_metric") 4) initial)).
    intros [H|[H|H]]; vm_compute in H; discriminate H.
  - apply (proj2 (metric_token_checked
                    Sample.no_files Sample.working_engine
                    (Sample.call (lit "ssimulacra2") 4) initial)).
    right. left. reflexivity.
Defined.

(** The struct is released once when the copy succeeds and once when the
    copy raises (here on a message that is not UTF-8). *)
Lemma result_released_exactly_once_witness :
  (fst (optimize_image Sample.no_files Sample.garbling_engine
                       (Sample.call (lit "none") 4) initial)
   = Raise UnicodeDecodeError)
  /\
  exists pre loads,
    trace (snd (optimize_image Sample.no_files Sample.garbling_engine
                               (Sample.call (lit "none") 4) initial))
    = pre ++ ev_optimize
               (Sample.request 0 (blit "none") (blit "jpeg,png,webp,avif") 4)
          :: loads ++ [ev_free 1%N] /\
    forallb (is_load 1%N) loads = true /\
    count (is_free 1%N)
          (trace (snd (optimize_image Sample.no_files Sample.garbling_engine
                                      (Sample.call (lit "none") 4) initial)))
    = 1%nat.
Proof.
  split; [reflexivity|].
  destruct (result_released_exactly_once
              Sample.no_files Sample.garbling_engine
              (Sample.call (lit "none") 4) initial _ _
              (trace (snd (optimize_image Sample.no_files Sample.garbling_engine
                                          (Sample.call (lit "none") 4) initial)))
              (Sample.request 0 (blit "none") (blit "jpeg,png,webp,avif") 4)
              Sample.garbled
              (surjective_pairing _) eq_refl
              (or_introl eq_refl) eq_refl)
    as (pre & loads & E & _ & L & N & _).
  exists pre, loads. split; [exact E|]. split; [exact L|exact N].
Defined.

Lemma oversized_input_rejected_witness :
  (exists msg evs,
     optimize_image Sample.no_files Sample.working_engine
                    (Sample.call_input (InBytes Sample.oversized)) initial
     = (Raise (ValueError msg), logged initial evs) /\
     count is_file_read evs = 0%nat /\
     count is_native_call evs = 0%nat)
  /\
  (exists msg evs,
     optimize_image (Sample.one_file Sample.huge_file) Sample.working_engine
                    (Sample.call_input (InPath (lit "in.jpg"))) initial
     = (Raise (ValueError msg), logged initial evs) /\
     count is_file_read evs = 0%nat /\
     count is_native_call evs = 0%nat).
Proof.
  split.
  - apply oversized_input_rejected. left. exists Sample.oversized.
    split; [reflexivity|].
    unfold Sample.oversized, len. rewrite repeat_length.
    unfold MAX_INPUT_SIZE. lia.
  - apply oversized_input_rejected. right.
    exists (lit "in.jpg"), Sample.huge_file.
    split; [reflexivity|]. split; reflexivity.
Defined.

Lemma max_diff_bounds_checked_witness :
  (exists msg,
     optimize_image Sample.no_files Sample.working_engine
                    (Sample.call_max_diff Sample.one_and_a_half) initial
     = (Raise (ValueError msg), initial))
  /\
  (exists msg,
     optimize_image Sample.no_files Sample.working_engine
                    (Sample.call_max_diff Sample.minus_quarter) initial
     = (Raise (ValueError msg), initial))
  /\
  (forall out s',
     optimize_image Sample.no_files Sample.working_engine
                    (Sample.call_max_diff PyFloat.one) initial = (out, s') ->
     forall d', out <> Raise (ValueError (msg_max_diff d'))).
Proof.
  split; [|split].
  - apply (proj1 (max_diff_bounds_checked
                    Sample.no_files Sample.working_engine
                    (Sample.call_max_diff Sample.one_and_a_half) initial
                    Sample.one_and_a_half eq_refl)).
    right. reflexivity.
  - apply (proj1 (max_diff_bounds_checked
                    Sample.no_files Sample.working_engine
                    (Sample.call_max_diff Sample.minus_quarter) initial
                    Sample.minus_quarter eq_refl)).
    left. reflexivity.
  - apply (proj2 (max_diff_bounds_checked
                    Sample.no_files Sample.working_engine
                    (Sample.call_max_diff PyFloat.one) initial
                    PyFloat.one eq_refl)).
    split; reflexivity.
Defined.

(** ** The successful copy and the missing file *)

Lemma copy_out_passed r mem :
  FFI.passed r <> 0 ->
  0 < FFI.output_len r <= 2 ^ 63 - 1 ->
  FFI.output_bytes r = Some mem ->
  decodable (FFI.format r) -> decodable (FFI.error_message r) ->
  copy_out r
  = Return {| output_buffer := map mem (seq 0 (Z.to_nat (FFI.output_len r)));
              format := match text_of (FFI.format r) with
                        | Some t => t
                        | None => []
                        end;
              diff_value := FFI.diff_value r;
              passed := true;
              error_message := text_of (FFI.error_message r) |}.
Proof.
  intros Hp Hn Hm Hf He. unfold copy_out, copy_buffer.
  replace (FFI.passed r =? 0) with false by (symmetry; now apply Z.eqb_neq).
  replace (FFI.output_len r >? 0) with true by (symmetry; apply Z.gtb_gt; lia).
  replace (FFI.output_len r >? 2 ^ 63 - 1) with false
    by (symmetry; rewrite Z.gtb_ltb; apply Z.ltb_ge; lia).
  rewrite Hm. cbn [negb].
  now rewrite (copy_text_decodable _ Hf), (copy_text_decodable _ He).
Qed.

(** When the engine answers with a struct whose [passed] is set, whose
    buffer is not NULL and whose text is well-formed, [optimize_image]
    returns the first [output_len] bytes of the engine's buffer, so that
    [size] is [output_len], with [passed = True]. *)
Theorem success_bytes_copied fs engine a s out s' evs o r mem :
  optimize_image fs engine a s = (out, s') ->
  trace s' = trace s ++ evs ->
  In o (requests evs) ->
  engine o = Some r ->
  FFI.passed r <> 0 ->
  0 < FFI.output_len r <= 2 ^ 63 - 1 ->
  FFI.output_bytes r = Some mem ->
  decodable (FFI.format r) ->
  decodable (FFI.error_message r) ->
  exists res,
    out = Return res /\
    output_buffer res = map mem (seq 0 (Z.to_nat (FFI.output_len r))) /\
    size res = FFI.output_len r /\
    passed res = true.
Proof.
  intros E T I En Hp Hn Hm Hf He.
  destruct (run_with_struct _ _ _ _ _ _ _ _ _ E T I En) as [-> _].
  rewrite (copy_out_passed r mem Hp Hn Hm Hf He).
  eexists. split; [reflexivity|]. split; [reflexivity|]. split; [|reflexivity].
  unfold size, len. cbn [output_buffer].
  rewrite length_map, length_seq. lia.
Qed.

Lemma success_bytes_copied_witness :
  exists res,
    fst (optimize_image Sample.no_files Sample.working_engine
                        (Sample.call (lit "none") 4) initial) = Return res /\
    output_buffer res = [x01; x02; x03] /\
    size res = 3 /\
    passed res = true.
Proof.
  refine (success_bytes_copied
            Sample.no_files Sample.working_engine
            (Sample.call (lit "none") 4) initial _ _ _
            (Sample.request 0 (blit "none") (blit "jpeg,png,webp,avif") 4)
            Sample.success Sample.candidate
            (surjective_pairing _) _ _ _ _ _ _ _ _).
  - vm_compute. reflexivity.
  - vm_compute. left. reflexivity.
  - reflexivity.
  - discriminate.
  - split; [reflexivity|]. intros H. vm_compute in H. discriminate H.
  - reflexivity.
  - vm_compute. discriminate.
  - exact I.
Defined.

(** A path that names no file makes [optimize_image] raise
    FileNotFoundError, or ValueError when an argument is rejected first; the
    engine is not called. *)
Theorem missing_file_rejected fs engine a s p :
  Args.input_path a = InPath p ->
  fs p = None ->
  exists e evs,
    optimize_image fs engine a s = (Raise e, logged s evs) /\
    (e = FileNotFoundError p \/ exists msg, e = ValueError msg) /\
    count is_native_call evs = 0%nat.
Proof.
  intros Hi Hp. destruct (validate_cases a s) as [V|[msg V]].
  - exists (FileNotFoundError p), [ev_exists p].
    split; [|split; [now left|reflexivity]].
    apply optimize_image_rejected_input; [exact V|].
    rewrite Hi. now apply read_path_missing.
  - exists (ValueError msg), []. rewrite logged_nil.
    split; [now apply optimize_image_rejected_args|].
    split; [right; now exists msg|reflexivity].
Qed.

Lemma missing_file_rejected_witness :
  exists e evs,
    optimize_image Sample.no_files Sample.working_engine
                   (Sample.call_input (InPath (lit "in.jpg"))) initial
    = (Raise e, logged initial evs) /\
    (e = FileNotFoundError (lit "in.jpg") \/ exists msg, e = ValueError msg) /\
    count is_native_call evs = 0%nat.
Proof.
  apply missing_file_rejected; reflexivity.
Defined.

(** ** The repository's own tests, run on the model *)

(** [test_empty_input]: ValueError, "Input bytes cannot be empty". *)
Example test_empty_input :
  fst (optimize_image Sample.no_files Sample.working_engine
         {| Args.input_path := InBytes [];
            Args.max_bytes := None;
            Args.max_diff := None;
            Args.metric := lit "none";
            Args.formats := None;
            Args.concurrency := 4;
            Args.cache_enabled := true;
            Args.cache_dir := None;
            Args.cache_max_size := 1024 * 1024 * 1024 |} initial)
  = Raise (ValueError msg_bytes_empty).
Proof. reflexivity. Qed.

(** [test_invalid_metric]: ValueError, "metric must be ...". *)
Example test_invalid_metric :
  fst (optimize_image Sample.no_files Sample.working_engine
         (Sample.call (lit "invalid_metric") 4) initial)
  = Raise (ValueError (msg_metric (lit "invalid_metric"))).
Proof. reflexivity. Qed.

(** [test_save_failure] builds the failed result by hand; the binding's own
    failed result on a NULL handle has the same shape. *)
Example test_null_result_shape :
  output_buffer null_result = [] /\ format null_result = [] /\
  passed null_result = false /\ size null_result = 0.
Proof. repeat split; reflexivity. Qed.

(** ** The request struct *)

Lemma read_input_returns fs i s b s' :
  read_input fs i s = (Return b, s') ->
  match i with
  | InBytes b' => b = b' /\ 0 < len b <= MAX_INPUT_SIZE /\ s' = s
  | InPath p =>
      exists f, fs p = Some f /\ b = contents f /\
                0 < Z.abs (st_size f) /\ st_size f <= MAX_INPUT_SIZE /\
                s' = logged s [ev_exists p; ev_getsize p; ev_read p]
  end.
Proof.
  assert (Hm : 0 < MAX_INPUT_SIZE) by reflexivity.
  destruct i as [b'|p]; intros H.
  - destruct (Z.eq_dec (len b') 0) as [E|E].
    { destruct b'; [|discriminate E]. rewrite read_bytes_empty in H.
      discriminate. }
    destruct (Z_lt_le_dec MAX_INPUT_SIZE (len b')) as [L|L].
    { rewrite read_bytes_too_large in H by exact L. discriminate. }
    assert (R : 0 < len b' <= MAX_INPUT_SIZE) by (unfold len in *; lia).
    rewrite (read_bytes_ok fs s b' R) in H. inversion H; subst. auto.
  - destruct (fs p) as [f|] eqn:F.
    2:{ rewrite read_path_missing in H by exact F. discriminate. }
    destruct (Z.eq_dec (st_size f) 0) as [E|E].
    { rewrite (read_path_empty fs s p f F E) in H. discriminate. }
    destruct (Z_lt_le_dec MAX_INPUT_SIZE (st_size f)) as [L|L].
    { rewrite (read_path_too_large fs s p f F L) in H. discriminate. }
    rewrite (read_path_ok fs s p f F) in H by lia.
    inversion H; subst. exists f. repeat split; auto; lia.
Qed.

(** A request among the events of a call was marshalled from arguments that
    passed the checks and from the bytes the input gave. *)
Lemma run_request fs engine a s out s' evs o :
  optimize_image fs engine a s = (out, s') ->
  trace s' = trace s ++ evs ->
  In o (requests evs) ->
  exists b evs0,
    validate a s = (Return tt, s) /\
    read_input fs (Args.input_path a) s = (Return b, logged s evs0) /\
    marshal a b (logged s evs0) = (Return o, logged s evs0) /\
    requests evs = [o].
Proof.
  intros E T I. apply optimize_image_run in E.
  inversion E as [m V|e evs0 V R F N|b evs0 V R F Mr|b evs0 o0 V R F Mr En0
                 |b evs0 o0 r0 loads V R F Mr En0 L C]; subst.
  - apply app_self_nil in T. subst. destruct I.
  - cbn in T. apply app_inv_head in T. subst.
    rewrite (fs_events_requests _ F) in I. destruct I.
  - cbn in T. apply app_inv_head in T. subst.
    rewrite (fs_events_requests _ F) in I. destruct I.
  - cbn in T. apply app_inv_head in T. subst.
    rewrite (requests_of_null _ _ F) in I |- *. destruct I as [<-|[]].
    exists b, evs0. auto.
  - cbn in T. apply app_inv_head in T. subst.
    rewrite (requests_of_call _ _ _ _ F L) in I |- *. destruct I as [<-|[]].
    exists b, evs0. auto.
Qed.

Lemma marshal_request_of a b s o s' :
  1 <= Args.concurrency a <= 16 ->
  marshal a b s = (Return o, s') ->
  exists metric_type formats cache_dir,
    o = request_of a b metric_type formats cache_dir /\
    Utf8.encode (Args.metric a) = Some metric_type /\
    match Args.formats a with
    | None => formats = blit "jpeg,png,webp,avif"
    | Some l => Utf8.encode (join (lit ",") l) = Some formats
    end /\
    match Args.cache_dir a with
    | None | Some [] => cache_dir = []
    | Some c => Utf8.encode c = Some cache_dir
    end.
Proof.
  intros Hc. unfold marshal, encode_utf8. run.
  assert (Hw : FFI.c_uint 8 (Args.concurrency a) = Args.concurrency a)
    by (unfold FFI.c_uint; apply Z.mod_small; change (2 ^ 8) with 256; lia).
  assert (Hb : forall n, FFI.c_uint 32 (if n =? 0 then 0 else n) = n mod 2 ^ 32).
  { intros n. destruct (Z.eqb_spec n 0); subst; reflexivity. }
  assert (Hd : forall d, (if PyFloat.truthy d then d else PyFloat.zero)
                         = (if PyFloat.eq d PyFloat.zero then PyFloat.zero else d)).
  { intros d. unfold PyFloat.truthy. now destruct (PyFloat.eq d PyFloat.zero). }
  destruct (Args.formats a) as [l|] eqn:Ef;
    [destruct (Utf8.encode (join (lit ",") l)) as [fb|] eqn:El;
     [|intros X; discriminate X]|].
  all: destruct (Args.cache_dir a) as [[|c d]|] eqn:Ec;
    try (destruct (Utf8.encode (c :: d)) as [cb|] eqn:Ecd;
         [|intros X; discriminate X]).
  all: destruct (Utf8.encode (Args.metric a)) as [mt|] eqn:Em;
    [|intros X; discriminate X].
  all: intros X; inversion X; subst; clear X.
  all: do 3 eexists; split;
    [unfold request_of; rewrite Hw; f_equal;
     destruct (Args.max_bytes a), (Args.max_diff a);
     rewrite ?Hb, ?Hd; reflexivity|].
  all: auto.
Qed.



(** A negative [max_bytes] makes [optimize_image] raise ValueError with the
    world untouched; a [max_bytes] of zero or more, or None, is never the
    reason of a rejection, however large it is. *)
Theorem max_bytes_checked fs engine a s :
  (forall n, Args.max_bytes a = Some n -> n < 0 ->
   exists msg, optimize_image fs engine a s = (Raise (ValueError msg), s))
  /\
  ((forall n, Args.max_bytes a = Some n -> 0 <= n) ->
   forall out s',
     optimize_image fs engine a s = (out, s') ->
     forall n', out <> Raise (ValueError (msg_max_bytes n'))).
Proof.
  split.
  - intros n Hn Hneg. destruct (validate_cases a s) as [V|[msg V]].
    + apply validate_inv in V as (_ & _ & V & _). specialize (V n Hn). lia.
    + exists msg. now apply optimize_image_rejected_args.
  - intros H out s' E n' X. subst out.
    apply optimize_image_run in E.
    inversion E as [m V|e evs V R F N|b evs V R F Mr|b evs o V R F Mr En
                   |b evs o r loads V R F Mr En L C]; subst.
    + apply validate_inv in V as [_ [V Vn]]. specialize (H n' V). lia.
    + apply read_input_raises in R. discriminate.
    + match goal with X : copy_out _ = _ |- _ =>
        apply copy_out_raises in X; discriminate end.
Qed.

Lemma max_bytes_checked_witness :
  (exists msg,
     optimize_image Sample.no_files Sample.working_engine
       {| Args.input_path := InBytes Sample.jpeg;
          Args.max_bytes := Some (-1);
          Args.max_diff := None;
          Args.metric := lit "none";
          Args.formats := None;
          Args.concurrency := 4;
          Args.cache_enabled := true;
          Args.cache_dir := None;
          Args.cache_max_size := 0 |} initial
     = (Raise (ValueError msg), initial))
  /\
  (forall out s',
     optimize_image Sample.no_files Sample.working_engine
                    Sample.call_max_bytes initial = (out, s') ->
     forall n', out <> Raise (ValueError (msg_max_bytes n'))).
Proof.
  split.
  - apply (proj1 (max_bytes_checked Sample.no_files Sample.working_engine _ initial)
             (-1)); reflexivity.
  - apply (proj2 (max_bytes_checked Sample.no_files Sample.working_engine
                    Sample.call_max_bytes initial)).
    intros n H. inversion H. discriminate.
Defined.

(** ** The order of the external calls *)

Lemma loads_then_free_no_fs h evs :
  loads_then_free h evs = true -> count is_fs_event evs = 0%nat.
Proof.
  intros H. destruct (loads_then_free_split h evs H) as (l & -> & F).
  rewrite count_app. replace (count is_fs_event l) with 0%nat; [reflexivity|].
  clear H. induction l as [|e l IH]; [reflexivity|].
  cbn in F. apply andb_true_iff in F as [He Hr].
  destruct e; try discriminate; cbn; auto.
Qed.

Lemma loads_then_free_no_call h evs :
  loads_then_free h evs = true -> count is_native_call evs = 0%nat.
Proof.
  intros H. destruct (loads_then_free_split h evs H) as (l & -> & F).
  rewrite count_app. replace (count is_native_call l) with 0%nat; [reflexivity|].
  clear H. induction l as [|e l IH]; [reflexivity|].
  cbn in F. apply andb_true_iff in F as [He Hr].
  destruct e; try discriminate; cbn; auto.
Qed.

Lemma read_input_reads_once fs i s out evs :
  read_input fs i s = (out, logged s evs) ->
  forallb is_fs_event evs = true ->
  (count is_file_read evs <= 1)%nat.
Proof.
  intros R F. destruct out as [b|e|].
  - apply read_input_returns in R. destruct i as [b'|p].
    + destruct R as (_ & _ & R). symmetry in R.
      unfold logged in R. apply (f_equal trace) in R. cbn in R.
      apply app_self_nil in R. subst. cbn. lia.
    + destruct R as (f & _ & _ & _ & _ & R).
      unfold logged in R. apply (f_equal trace) in R. cbn in R.
      apply app_inv_head in R. subst. cbn. lia.
  - destruct (read_input_cases fs s i) as (out' & evs' & R' & _ & _ & C & _).
    rewrite R in R'. inversion R' as [[Ho Ht]].
    apply app_inv_head in Ht. subst. rewrite (C e eq_refl). lia.
  - destruct (read_input_cases fs s i) as (out' & evs' & R' & _ & N & _).
    rewrite R in R'. inversion R'. congruence.
Qed.

(** [optimize_image] touches the file system only before the native call,
    reads the contents of the file at most once, and calls the engine at
    most once; after the native call nothing but the result struct is
    accessed. *)
Theorem single_native_call fs engine a s out s' :
  optimize_image fs engine a s = (out, s') ->
  exists pre post,
    trace s' = trace s ++ pre ++ post /\
    forallb is_fs_event pre = true /\
    (count is_file_read pre <= 1)%nat /\
    count is_fs_event post = 0%nat /\
    (count is_native_call post <= 1)%nat /\
    (count is_native_call post = 0%nat -> post = []).
Proof.
  intros E. apply optimize_image_run in E.
  inversion E as [m V|e evs V R F N|b evs V R F Mr|b evs o V R F Mr En
                 |b evs o r loads V R F Mr En L C]; subst.
  - exists [], []. cbn. rewrite app_nil_r. repeat split; auto.
  - exists evs, []. cbn. rewrite app_nil_r. rewrite N. repeat split; auto.
  - exists evs, []. cbn. rewrite app_nil_r. repeat split; auto.
    eapply read_input_reads_once; eauto.
  - exists evs, [ev_optimize o]. cbn. repeat split; auto.
    + eapply read_input_reads_once; eauto.
    + discriminate.
  - exists evs, (ev_optimize o :: loads). split; [reflexivity|].
    split; [exact F|]. split; [eapply read_input_reads_once; eauto|].
    change (ev_optimize o :: loads) with ([ev_optimize o] ++ loads).
    rewrite !count_app, (loads_then_free_no_fs _ _ L),
      (loads_then_free_no_call _ _ L).
    cbn. repeat split; auto. discriminate.
Qed.

(** ** No struct is left behind *)

Lemma remove_fresh h hp :
  (forall k r, In (k, r) hp -> (k < h)%N) -> remove h hp = hp.
Proof.
  induction hp as [|[k r] hp IH]; [reflexivity|].
  intros H. unfold remove in *. cbn.
  assert (Hk : (k < h)%N) by (apply (H k r); now left).
  replace (N.eqb k h) with false by (symmetry; apply N.eqb_neq; lia).
  cbn. f_equal. apply IH. intros k' r' I. apply (H k' r'). now right.
Qed.

Lemma loads_then_free_releases h evs :
  loads_then_free h evs = true -> count is_release evs = 1%nat.
Proof.
  intros H. destruct (loads_then_free_split h evs H) as (l & -> & F).
  rewrite count_app. replace (count is_release l) with 0%nat; [reflexivity|].
  clear H. induction l as [|e l IH]; [reflexivity|].
  cbn in F. apply andb_true_iff in F as [He Hr].
  destruct e; try discriminate; cbn; auto.
Qed.

Lemma fs_events_no_release evs :
  forallb is_fs_event evs = true -> count is_release evs = 0%nat.
Proof.
  induction evs as [|e evs IH]; [reflexivity|].
  cbn. intros H. apply andb_true_iff in H as [He Hr].
  destruct e; try discriminate; cbn; auto.
Qed.

(** One call keeps the native heap as it found it: the struct it was given
    is released, and as many structs are released as were handed out. *)
Lemma optimize_image_heap fs engine a s out s' :
  fresh s ->
  optimize_image fs engine a s = (out, s') ->
  out <> Fault /\ heap s' = heap s /\ fresh s' /\
  exists evs,
    trace s' = trace s ++ evs /\
    count is_release evs
    = List.length (filter (answered engine) (requests evs)).
Proof.
  intros Hf E. apply optimize_image_run in E.
  inversion E as [m V|e evs V R F N|b evs V R F Mr|b evs o V R F Mr En
                 |b evs o r loads V R F Mr En L C]; subst.
  - split; [discriminate|]. split; [reflexivity|]. split; [exact Hf|].
    exists []. rewrite app_nil_r. split; reflexivity.
  - split; [discriminate|]. split; [reflexivity|]. split; [exact Hf|].
    exists evs. split; [reflexivity|].
    now rewrite (fs_events_no_release _ F), (fs_events_requests _ F).
  - split; [discriminate|]. split; [reflexivity|]. split; [exact Hf|].
    exists evs. split; [reflexivity|].
    now rewrite (fs_events_no_release _ F), (fs_events_requests _ F).
  - split; [discriminate|]. split; [reflexivity|]. split; [exact Hf|].
    exists (evs ++ [ev_optimize o]). split; [reflexivity|].
    rewrite (requests_of_null _ _ F), count_app, (fs_events_no_release _ F).
    cbn. unfold answered. now rewrite En.
  - split; [apply copy_out_no_fault|].
    assert (Hh : remove (next s) (heap s) = heap s)
      by (apply remove_fresh; exact Hf).
    split; [cbn; exact Hh|]. split.
    { intros h r' I. cbn in I |- *. rewrite Hh in I.
      specialize (Hf h r' I). lia. }
    exists (evs ++ ev_optimize o :: loads). split; [reflexivity|].
    rewrite (requests_of_call _ _ _ _ F L), count_app,
      (fs_events_no_release _ F).
    change (ev_optimize o :: loads) with ([ev_optimize o] ++ loads).
    rewrite count_app, (loads_then_free_releases _ _ L).
    cbn. unfold answered. now rewrite En.
Qed.

(** Whatever calls are made one after the other, and however each of them
    ends, the native heap is afterwards as it was before: every result
    struct the engine handed out was released, exactly as many releases as
    structs, and no call read or released a struct it did not own. *)
Theorem no_struct_left_behind fs engine calls s out s' :
  fresh s ->
  optimize_all fs engine calls s = (out, s') ->
  out <> Fault /\ heap s' = heap s /\
  exists evs,
    trace s' = trace s ++ evs /\
    count is_release evs
    = List.length (filter (answered engine) (requests evs)).
Proof.
  revert s out s'. induction calls as [|a rest IH]; intros s out s' Hf E.
  - cbn in E. inversion E; subst. split; [discriminate|].
    split; [reflexivity|]. exists []. rewrite app_nil_r. split; reflexivity.
  - cbn [optimize_all] in E. unfold bind in E.
    destruct (optimize_image fs engine a s) as [o1 s1] eqn:E1.
    destruct (optimize_image_heap _ _ _ _ _ _ Hf E1)
      as (N1 & H1 & F1 & evs1 & T1 & C1).
    destruct o1 as [r1|e1|]; [|inversion E; subst|congruence].
    2:{ split; [discriminate|]. split; [exact H1|]. now exists evs1. }
    destruct (optimize_all fs engine rest s1) as [o2 s2] eqn:E2.
    destruct (IH _ _ _ F1 E2) as (N2 & H2 & evs2 & T2 & C2).
    assert (Hs : s' = s2 /\ (out = Fault -> o2 = Fault)).
    { destruct o2; cbn in E; inversion E; subst; split; auto; discriminate. }
    destruct Hs as [-> Ho].
    split; [intros X; now apply N2, Ho|].
    split; [congruence|].
    exists (evs1 ++ evs2). split; [now rewrite T2, T1, app_assoc|].
    rewrite count_app, requests_app, filter_app, length_app. lia.
Qed.

Lemma no_struct_left_behind_witness :
  heap (snd (optimize_all Sample.no_files Sample.garbling_engine
               [Sample.call (lit "none") 1; Sample.call (lit "dssim") 2]
               initial))
  = [].
Proof.
  refine (proj1 (proj2 (no_struct_left_behind
                          Sample.no_files Sample.garbling_engine
                          [Sample.call (lit "none") 1; Sample.call (lit "dssim") 2]
                          initial _ _ _ (surjective_pairing _)))).
  intros h r I. destruct I.
Defined.

Lemma single_native_call_witness :
  exists pre post,
    trace (snd (optimize_image (Sample.one_file
                                  {| st_size := 4; contents := Sample.jpeg |})
                               Sample.working_engine
                               (Sample.call_input (InPath (lit "in.jpg")))
                               initial))
    = trace initial ++ pre ++ post /\
    forallb is_fs_event pre = true /\
    (count is_file_read pre <= 1)%nat /\
    count is_fs_event post = 0%nat /\
    (count is_native_call post <= 1)%nat /\
    (count is_native_call post = 0%nat -> post = []).
Proof.
  exact (single_native_call _ _ _ _ _ _ (surjective_pairing _)).
Defined.

(** ** A file and its bytes *)

Lemma marshal_stateless a b s1 s2 x t :
  marshal a b s1 = (x, t) -> marshal a b s2 = (x, s2) /\ t = s1.
Proof.
  unfold marshal, encode_utf8. run.
  destruct (Args.formats a) as [l|];
    [destruct (Utf8.encode (join (lit ",") l))|].
  all: destruct (Args.cache_dir a) as [[|c d]|];
    try destruct (Utf8.encode (c :: d)).
  all: destruct (Utf8.encode (Args.metric a)).
  all: intros X; inversion X; subst; split; reflexivity.
Qed.

(** Optimizing a file whose size is that of its contents is optimizing
    those contents: the outcome is the same, and so are the request the
    engine gets and the native heap left behind. *)
Theorem path_and_bytes_agree fs engine a s p f :
  fs p = Some f ->
  st_size f = len (contents f) ->
  0 < len (contents f) <= 100 * 1024 * 1024 ->
  forall out_p s_p out_b s_b,
    optimize_image fs engine (with_input a (InPath p)) s = (out_p, s_p) ->
    optimize_image fs engine (with_input a (InBytes (contents f))) s
    = (out_b, s_b) ->
    out_p = out_b /\
    heap s_p = heap s_b /\
    exists evs_p evs_b,
      trace s_p = trace s ++ evs_p /\
      trace s_b = trace s ++ evs_b /\
      requests evs_p = requests evs_b.
Proof.
  intros F Hs Hl out_p s_p out_b s_b Ep Eb.
  assert (Rp : read_input fs (InPath p) s
               = (Return (contents f),
                  logged s [ev_exists p; ev_getsize p; ev_read p]))
    by (apply read_path_ok; [exact F| |]; unfold MAX_INPUT_SIZE; lia).
  assert (Rb : read_input fs (InBytes (contents f)) s = (Return (contents f), s))
    by (apply read_bytes_ok; unfold MAX_INPUT_SIZE; lia).
  unfold optimize_image in Ep, Eb. unfold bind at 1 in Ep. unfold bind at 1 in Eb.
  change (validate (with_input a (InPath p)) s) with (validate a s) in Ep.
  change (validate (with_input a (InBytes (contents f))) s)
    with (validate a s) in Eb.
  destruct (validate_cases a s) as [V|[m V]]; rewrite V in Ep, Eb.
  2:{ inversion Ep; inversion Eb; subst. split; [reflexivity|].
      split; [reflexivity|]. exists [], []. rewrite app_nil_r. auto. }
  unfold bind at 1 in Ep. unfold bind at 1 in Eb.
  cbn [Args.input_path with_input] in Ep, Eb. rewrite Rp in Ep. rewrite Rb in Eb.
  unfold bind at 1 in Ep. unfold bind at 1 in Eb.
  change (marshal (with_input a (InPath p))) with (marshal a) in Ep.
  change (marshal (with_input a (InBytes (contents f)))) with (marshal a) in Eb.
  destruct (marshal a (contents f) s) as [x t] eqn:M.
  destruct (marshal_stateless _ _ _
              (logged s [ev_exists p; ev_getsize p; ev_read p]) _ _ M)
    as [M' ->].
  rewrite M' in Ep.
  destruct x as [o|e|].
  2:{ inversion Ep; inversion Eb; subst. split; [reflexivity|].
      split; [reflexivity|].
      exists [ev_exists p; ev_getsize p; ev_read p], [].
      rewrite app_nil_r. auto. }
  2:{ inversion Ep; inversion Eb; subst. split; [reflexivity|].
      split; [reflexivity|].
      exists [ev_exists p; ev_getsize p; ev_read p], [].
      rewrite app_nil_r. auto. }
  unfold bind at 1 in Ep. unfold bind at 1 in Eb.
  destruct (engine o) as [r|] eqn:En.
  - rewrite (optimize_handle engine o r _ En) in Ep.
    rewrite (optimize_handle engine o r _ En) in Eb.
    cbn [trace heap next logged] in Ep.
    destruct (extract_run (next s) r
                {| trace := (trace s ++ [ev_exists p; ev_getsize p; ev_read p])
                            ++ [ev_optimize o];
                   heap := (next s, r) :: heap s;
                   next := N.succ (next s) |}) as (lp & Xp & Lp & _).
    { apply lookup_head. }
    destruct (extract_run (next s) r
                {| trace := trace s ++ [ev_optimize o];
                   heap := (next s, r) :: heap s;
                   next := N.succ (next s) |}) as (lb & Xb & Lb & _).
    { apply lookup_head. }
    rewrite Xp in Ep. rewrite Xb in Eb. cbn [trace heap next] in Ep, Eb.
    inversion Ep; inversion Eb; subst. cbn [heap trace].
    split; [reflexivity|]. split; [reflexivity|].
    exists ([ev_exists p; ev_getsize p; ev_read p] ++ ev_optimize o :: lp),
           (ev_optimize o :: lb).
    split; [now rewrite <- !app_assoc|]. split; [now rewrite <- !app_assoc|].
    cbn. now rewrite (loads_then_free_requests _ _ Lp),
      (loads_then_free_requests _ _ Lb).
  - rewrite (optimize_null engine o _ En) in Ep.
    rewrite (optimize_null engine o _ En) in Eb.
    inversion Ep; inversion Eb; subst. split; [reflexivity|].
    split; [reflexivity|].
    exists ([ev_exists p; ev_getsize p; ev_read p] ++ [ev_optimize o]),
           [ev_optimize o].
    split; [cbn; now rewrite <- !app_assoc|]. split; reflexivity.
Qed.

Lemma path_and_bytes_agree_witness :
  fst (optimize_image (Sample.one_file {| st_size := 4; contents := Sample.jpeg |})
                      Sample.working_engine
                      (with_input Sample.call_max_bytes (InPath (lit "in.jpg")))
                      initial)
  = fst (optimize_image (Sample.one_file {| st_size := 4; contents := Sample.jpeg |})
                        Sample.working_engine
                        (with_input Sample.call_max_bytes (InBytes Sample.jpeg))
                        initial).
Proof.
  refine (proj1 (path_and_bytes_agree
                   (Sample.one_file {| st_size := 4; contents := Sample.jpeg |})
                   Sample.working_engine Sample.call_max_bytes initial
                   (lit "in.jpg") {| st_size := 4; contents := Sample.jpeg |}
                   _ _ _ _ _ _ _
                   (surjective_pairing _) (surjective_pairing _))).
  - reflexivity.
  - reflexivity.
  - split; [reflexivity|]. intros H. vm_compute in H. discriminate H.
Defined.

(** ** Text that does not encode *)

(** When the formats or the cache directory hold text that UTF-8 cannot
    encode (a lone surrogate), the call raises and the engine is never
    called; once the arguments are accepted and the input is read, the
    exception is UnicodeEncodeError. *)
Theorem unencodable_text_raises fs engine a s out s' :
  ((exists l, Args.formats a = Some l /\ Utf8.encode (join (lit ",") l) = None)
   \/ (exists c, Args.cache_dir a = Some c /\ Utf8.encode c = None)) ->
  optimize_image fs engine a s = (out, s') ->
  (exists e, out = Raise e) /\
  (forall b s1,
     validate a s = (Return tt, s) ->
     read_input fs (Args.input_path a) s = (Return b, s1) ->
     out = Raise UnicodeEncodeError) /\
  exists evs, trace s' = trace s ++ evs /\ count is_native_call evs = 0%nat.
Proof.
  intros H E. apply optimize_image_run in E.
  assert (K : forall b s1 o s2,
             validate a s = (Return tt, s) ->
             marshal a b s1 = (Return o, s2) -> False).
  { intros b s1 o s2 V Mr.
    apply validate_inv in V as (_ & Hc & _).
    destruct (marshal_request_of _ _ _ _ _ Hc Mr) as (mt & fb & cb & _ & _ & Hf & Hd).
    destruct H as [(l & El & Hn)|(c & Ec & Hn)].
    - rewrite El in Hf. congruence.
    - rewrite Ec in Hd. destruct c; [discriminate Hn|congruence]. }
  inversion E as [m V|e evs V R F N|b evs V R F Mr|b evs o V R F Mr En
                 |b evs o r loads V R F Mr En L C]; subst.
  - split; [eauto|]. split.
    + intros b s1 V' _. rewrite V in V'. discriminate.
    + exists []. rewrite app_nil_r. auto.
  - split; [eauto|]. split.
    + intros b s1 _ R'. rewrite R in R'. discriminate.
    + exists evs. split; [reflexivity|]. now apply fs_events_no_call.
  - split; [eauto|]. split; [reflexivity|].
    exists evs. split; [reflexivity|]. now apply fs_events_no_call.
  - exfalso. eapply K; eauto.
  - exfalso. eapply K; eauto.
Qed.

Lemma unencodable_text_raises_witness :
  fst (optimize_image Sample.no_files Sample.working_engine
                      (Sample.call_formats [[55296%N]]) initial)
  = Raise UnicodeEncodeError.
Proof.
  refine (proj1 (proj2 (unencodable_text_raises
                          Sample.no_files Sample.working_engine
                          (Sample.call_formats [[55296%N]]) initial _ _ _
                          (surjective_pairing _)))
            Sample.jpeg initial _ _).
  - left. exists [[55296%N]]. split; reflexivity.
  - reflexivity.
  - reflexivity.
Defined.

(** ** Saving *)

Lemma str_eqb_refl (x : str) : str_eqb x x = true.
Proof. unfold str_eqb. destruct (list_eq_dec N.eq_dec x x); congruence. Qed.

Lemma str_eqb_neq (x y : str) : x <> y -> str_eqb x y = false.
Proof. unfold str_eqb. destruct (list_eq_dec N.eq_dec x y); congruence. Qed.

(** The result of a call the engine answered with NULL, or with a struct
    whose [passed] is 0, cannot be saved: [save] raises RuntimeError with the
    result's error message (the engine's, or "Optimization failed: null
    result") and leaves every file as it was. *)
Theorem failed_result_not_saved fs engine a s res s' evs o can_open p fs' :
  optimize_image fs engine a s = (Return res, s') ->
  trace s' = trace s ++ evs ->
  In o (requests evs) ->
  (engine o = None \/ exists r, engine o = Some r /\ FFI.passed r = 0) ->
  save can_open res p fs' = (inl (RuntimeError (error_message res)), fs') /\
  match engine o with
  | None => error_message res = Some (lit "Optimization failed: null result")
  | Some r => error_message res = text_of (FFI.error_message r)
  end.
Proof.
  intros E T I H. destruct (engine o) as [r|] eqn:En.
  - destruct H as [H|(r' & Hr & Hp)]; [discriminate|]. inversion Hr; subst r'.
    destruct (run_with_struct _ _ _ _ _ _ _ _ _ E T I En) as [Hc _].
    symmetry in Hc. apply copy_out_returned in Hc as (P & _ & _ & _ & M & _).
    rewrite Hp in P. cbn in P. unfold save. rewrite P. cbn. auto.
  - destruct (run_with_null _ _ _ _ _ _ _ _ E T I En) as [Hc _].
    inversion Hc; subst. split; reflexivity.
Qed.

Lemma failed_result_not_saved_witness :
  save (fun _ => true)
       {| output_buffer := [];
          format := lit "jpeg";
          diff_value := PyFloat.zero;
          passed := false;
          error_message := Some (lit "max_bytes exceeded") |}
       (lit "out.jpg") Sample.no_files
  = (inl (RuntimeError (Some (lit "max_bytes exceeded"))), Sample.no_files).
Proof.
  refine (proj1 (failed_result_not_saved
                   Sample.no_files Sample.failing_engine Sample.call_max_bytes
                   initial _ _ _
                   (Sample.request 10 (blit "dssim") (blit "jpeg,png,webp,avif") 4)
                   (fun _ => true) (lit "out.jpg") Sample.no_files
                   _ _ _ _)).
  - vm_compute. reflexivity.
  - vm_compute. reflexivity.
  - vm_compute. left. reflexivity.
  - right. exists Sample.constraint_failure. split; reflexivity.
Defined.

(** Saving a result that passed writes exactly its output buffer: the file
    has the size [size] reports, every other file is untouched, and a later
    [optimize_image] of that path hands the engine the very bytes that were
    saved. *)
Theorem saved_result_reads_back can_open res p fs :
  passed res = true ->
  can_open p = true ->
  exists fs',
    save can_open res p fs = (inr tt, fs') /\
    fs' p = Some {| st_size := size res; contents := output_buffer res |} /\
    (forall q, q <> p -> fs' q = fs q) /\
    (forall engine a s out s' evs o,
       Args.input_path a = InPath p ->
       optimize_image fs' engine a s = (out, s') ->
       trace s' = trace s ++ evs ->
       In o (requests evs) ->
       FFI.input_bytes o = output_buffer res).
Proof.
  intros P C. exists (write_file fs p (output_buffer res)).
  assert (Hp : write_file fs p (output_buffer res) p
               = Some {| st_size := size res; contents := output_buffer res |}).
  { unfold write_file. now rewrite str_eqb_refl. }
  split; [unfold save; now rewrite P, C|]. split; [exact Hp|]. split.
  - intros q Hq. unfold write_file. now rewrite (str_eqb_neq q p Hq).
  - intros engine a s out s' evs o Hi E T I.
    destruct (run_request _ _ _ _ _ _ _ _ E T I) as (b & evs0 & _ & R & Mr & _).
    apply marshal_fields in Mr as (-> & _).
    apply read_input_returns in R. rewrite Hi in R.
    destruct R as (f & F & -> & _). rewrite Hp in F. now inversion F.
Qed.

Lemma saved_result_reads_back_witness :
  exists fs',
    save (fun _ => true)
         {| output_buffer := Sample.jpeg; format := lit "jpeg";
            diff_value := PyFloat.zero; passed := true;
            error_message := None |}
         (lit "in.jpg") Sample.no_files = (inr tt, fs') /\
    fs' (lit "in.jpg") = Some {| st_size := 4; contents := Sample.jpeg |}.
Proof.
  destruct (saved_result_reads_back
              (fun _ => true)
              {| output_buffer := Sample.jpeg; format := lit "jpeg";
                 diff_value := PyFloat.zero; passed := true;
                 error_message := None |}
              (lit "in.jpg") Sample.no_files eq_refl eq_refl)
    as (fs' & S & F & _).
  exists fs'. split; [exact S|exact F].
Defined.

(** ** The search for the library *)

Section Search.

Import Loader.

Variable w : world.

Lemma find_elsewhere_hit p :
  fst (find_elsewhere w) = inr p <->
  (path_exists w (dev_lib_path w) = true /\ p = fspath w (dev_lib_path w))
  \/ (path_exists w (dev_lib_path w) = false /\ system_hit w p).
Proof.
  unfold find_elsewhere, system_hit.
  destruct (path_exists w (dev_lib_path w)).
  - cbn. split.
    + intros H. inversion H. now left.
    + intros [[_ ->]|[H _]]; [reflexivity|discriminate].
  - destruct (find_library w) as [[[|c r]|]|]; cbn; split;
      try (intros H; discriminate H).
    all: try (intros [[H _]|[_ [H N]]]; try discriminate; inversion H; subst;
              congruence).
    + intros H. inversion H; subst. right.
      split; [reflexivity|]. split; [reflexivity|discriminate].
    + intros [[H _]|[_ [H N]]]; [discriminate H|]. now inversion H.
Qed.

Lemma find_elsewhere_miss e :
  fst (find_elsewhere w) = inl e <->
  path_exists w (dev_lib_path w) = false /\ (forall p, ~ system_hit w p) /\
  e = NotFound (bundled_lib w) (dev_lib_path w).
Proof.
  unfold find_elsewhere, system_hit.
  destruct (path_exists w (dev_lib_path w)).
  - cbn. split; [discriminate|]. intros [H _]. discriminate.
  - destruct (find_library w) as [[[|c r]|]|]; cbn; split.
    all: try (intros H; inversion H; subst; split; [reflexivity|];
              split; [|reflexivity]; intros p [X N]; inversion X; congruence).
    all: try (intros (_ & _ & ->); reflexivity).
    + discriminate.
    + intros (_ & H & _). exfalso. apply (H (c :: r)). split; [reflexivity|].
      discriminate.
Qed.

Lemma find_bundled_hit p :
  fst (find_bundled w) = inr p <->
  (path_exists w (bundled_lib w) = true /\ p = fspath w (bundled_lib w))
  \/ (path_exists w (bundled_lib w) = false /\
      fst (find_elsewhere w) = inr p).
Proof.
  unfold find_bundled. destruct (path_exists w (bundled_lib w)).
  - cbn. split.
    + intros H. inversion H. now left.
    + intros [[_ ->]|[H _]]; [reflexivity|discriminate].
  - destruct (find_elsewhere w) as [r t]. cbn. split.
    + intros ->. now right.
    + intros [[H _]|[_ H]]; [discriminate|exact H].
Qed.

Lemma find_bundled_miss e :
  fst (find_bundled w) = inl e <->
  path_exists w (bundled_lib w) = false /\ fst (find_elsewhere w) = inl e.
Proof.
  unfold find_bundled. destruct (path_exists w (bundled_lib w)).
  - cbn. split; [discriminate|]. intros [H _]. discriminate.
  - destruct (find_elsewhere w) as [r t]. cbn. split.
    + intros ->. now split.
    + now intros [_ H].
Qed.

Lemma find_library_steps :
  fst (_find_library w)
  = match environ w with
    | Some q => if os_path_exists w q then inr q else fst (find_bundled w)
    | None => fst (find_bundled w)
    end.
Proof.
  unfold _find_library. destruct (environ w) as [q|]; [|reflexivity].
  destruct (os_path_exists w q); [reflexivity|].
  now destruct (find_bundled w).
Qed.

(** [_find_library] returns the first of: the path of PYJAMAZ_LIB_PATH if
    it exists, the bundled library if it exists, the library of the
    development tree if it exists, a non-empty answer of the system lookup;
    it raises RuntimeError exactly when there is none, naming the bundled
    and the development locations. *)
Theorem library_search_order :
  (forall p, fst (_find_library w) = inr p <-> first_hit w p) /\
  (forall e, fst (_find_library w) = inl e <->
             no_hit w /\ e = NotFound (bundled_lib w) (dev_lib_path w)).
Proof.
  rewrite find_library_steps. unfold first_hit, no_hit, env_hit, no_env_hit.
  split.
  - intros p. destruct (environ w) as [q|] eqn:Eq.
    + destruct (os_path_exists w q) eqn:Ex.
      * split.
        { intros H. inversion H; subst. left. now split. }
        { intros [[H _]|[(H & _)|[(H & _)|(H & _)]]].
          - now inversion H.
          - specialize (H q eq_refl). congruence.
          - specialize (H q eq_refl). congruence.
          - specialize (H q eq_refl). congruence. }
      * assert (N : forall p0, Some q = Some p0 -> os_path_exists w p0 = false)
          by (intros p0 X; inversion X; subst; exact Ex).
        rewrite find_bundled_hit, find_elsewhere_hit. split.
        { intros [[B ->]|[B [[D ->]|[D S]]]]; right; auto 10. }
        { intros [[H X]|[(_ & B & ->)|[(_ & B & D & ->)|(_ & B & D & S)]]];
            [inversion H; subst; congruence| | |]; auto 10. }
    + assert (N : forall p0, @None str = Some p0 -> os_path_exists w p0 = false)
        by (intros p0 X; discriminate X).
      rewrite find_bundled_hit, find_elsewhere_hit. split.
      { intros [[B ->]|[B [[D ->]|[D S]]]]; right; auto 10. }
      { intros [[H X]|[(_ & B & ->)|[(_ & B & D & ->)|(_ & B & D & S)]]];
          [discriminate H| | |]; auto 10. }
  - intros e. destruct (environ w) as [q|] eqn:Eq.
    + destruct (os_path_exists w q) eqn:Ex.
      * split; [discriminate|]. intros [(H & _) _].
        specialize (H q eq_refl). congruence.
      * rewrite find_bundled_miss, find_elsewhere_miss. split.
        { intros (B & D & S & ->). repeat split; auto.
          intros p0 X. inversion X; subst. exact Ex. }
        { intros ((_ & B & D & S) & ->). auto. }
    + rewrite find_bundled_miss, find_elsewhere_miss. split.
      { intros (B & D & S & ->). repeat split; auto.
        intros p0 X. discriminate X. }
      { intros ((_ & B & D & S) & ->). auto. }
Qed.

End Search.

(** The attempt to preload libavif never decides which library is found:
    whatever [ctypes.CDLL] does, the result is the same.  A preload is made
    only of the bundled libavif, only when it exists and the bundled
    library is the one returned; a library given by PYJAMAZ_LIB_PATH is
    returned after that one probe, with nothing preloaded. *)
Theorem preload_never_decides (w : Loader.world) (f : str -> bool) :
  fst (Loader._find_library (Loader.with_CDLL w f))
  = fst (Loader._find_library w)
  /\
  (forall name,
     In (Loader.preload name) (snd (Loader._find_library w)) ->
     name = Loader.fspath w (Loader.bundled_avif w) /\
     Loader.path_exists w (Loader.bundled_avif w) = true /\
     Loader.path_exists w (Loader.bundled_lib w) = true /\
     fst (Loader._find_library w)
     = inr (Loader.fspath w (Loader.bundled_lib w)))
  /\
  (forall p, Loader.env_hit w p ->
             Loader._find_library w = (inr p, [Loader.probe_env p])).
Proof.
  split; [|split].
  - destruct w as [env pl fl ope pe fsp cd fl2].
    unfold Loader._find_library, Loader.find_bundled, Loader.find_elsewhere,
      Loader.with_CDLL, Loader.bundled_lib, Loader.bundled_avif,
      Loader.dev_lib_path, Loader.native_dir, Loader.package_dir.
    cbn [Loader.environ Loader.platform Loader.file Loader.os_path_exists
         Loader.path_exists Loader.fspath Loader.CDLL Loader.find_library].
    repeat match goal with
           | |- context [match ?x with Some _ => _ | None => _ end] =>
               destruct x; try reflexivity
           | |- context [match ?x with [] => _ | _ :: _ => _ end] =>
               destruct x; try reflexivity
           | |- context [if ?b then _ else _] => destruct b; try reflexivity
           end.
  - intros name.
    unfold Loader._find_library, Loader.find_bundled, Loader.find_elsewhere.
    destruct (Loader.environ w) as [q|];
      [destruct (Loader.os_path_exists w q);
       [cbn; intros [H|[]]; discriminate H|]|].
    all: destruct (Loader.path_exists w (Loader.bundled_lib w)).
    all: try (destruct (Loader.path_exists w (Loader.dev_lib_path w));
              [|destruct (Loader.find_library w) as [[[|c r]|]|]];
              cbn; intros H;
              repeat (destruct H as [H|H]; [discriminate H|]);
              destruct H).
    all: destruct (Loader.path_exists w (Loader.bundled_avif w));
      [destruct (Loader.CDLL w (Loader.fspath w (Loader.bundled_avif w)))|];
      cbn; intros H;
      repeat (destruct H as [H|H];
              [first [discriminate H | inversion H; auto]|]);
      destruct H.
  - intros p [E X]. unfold Loader._find_library. now rewrite E, X.
Qed.

(** ** The build and the loader *)

Lemma parent_div (p : Loader.Path) (n : str) :
  Loader.parent (Loader.div p n) = p.
Proof.
  destruct p as [a l]. unfold Loader.parent, Loader.div. cbn.
  now rewrite removelast_last.
Qed.

(** In a checkout with [setup.py] in one directory and the package
    [pyjamaz/__init__.py] beside it, the library of the development tree
    the loader falls back to is the file the build takes its copy from,
    [<root>/zig-out/lib/<name>] three levels up, on macOS and on Linux. *)
Theorem dev_library_is_build_source
    (dir : Loader.Path) (c : Build.command) (w : Loader.world) :
  Build.setup_file c = Loader.div dir (lit "setup.py") ->
  Loader.file w
  = Loader.div (Loader.div dir (lit "pyjamaz")) (lit "__init__.py") ->
  (Build.system c = lit "Darwin" /\ Loader.platform w = lit "darwin")
  \/ (Build.system c = lit "Linux" /\ Loader.platform w = lit "linux") ->
  exists libpyjamaz libavif libavif_source,
    Build.libraries c = Some (libpyjamaz, libavif, libavif_source) /\
    Loader.lib_names (Loader.platform w) = (libpyjamaz, libavif) /\
    Loader.dev_lib_path w = Loader.div (Build.zig_out_lib c) libpyjamaz.
Proof.
  intros Hs Hf Hp.
  assert (D : Loader.dev_lib_path w
              = Loader.div (Build.zig_out_lib c)
                           (fst (Loader.lib_names (Loader.platform w)))).
  { unfold Loader.dev_lib_path, Loader.package_dir, Build.zig_out_lib,
      Build.project_root. rewrite Hs, Hf, !parent_div. reflexivity. }
  destruct Hp as [[S P]|[S P]]; unfold Build.libraries; rewrite S;
    rewrite D, P; cbn; do 3 eexists; repeat split; reflexivity.
Qed.

Lemma dev_library_is_build_source_witness :
  exists libpyjamaz libavif libavif_source,
    Build.libraries
      {| Build.system := lit "Linux";
         Build.setup_file :=
           {| Loader.anchor := lit "/";
              Loader.names := [lit "repo"; lit "bindings"; lit "python";
                               lit "setup.py"] |};
         Build.build_lib :=
           {| Loader.anchor := []; Loader.names := [lit "build"] |} |}
    = Some (libpyjamaz, libavif, libavif_source) /\
    libpyjamaz = lit "libpyjamaz.so" /\
    libavif = lit "libavif.so.16".
Proof.
  destruct (dev_library_is_build_source
              {| Loader.anchor := lit "/";
                 Loader.names := [lit "repo"; lit "bindings"; lit "python"] |}
              {| Build.system := lit "Linux";
                 Build.setup_file :=
                   {| Loader.anchor := lit "/";
                      Loader.names := [lit "repo"; lit "bindings"; lit "python";
                                       lit "setup.py"] |};
                 Build.build_lib :=
                   {| Loader.anchor := []; Loader.names := [lit "build"] |} |}
              {| Loader.environ := None;
                 Loader.platform := lit "linux";
                 Loader.file :=
                   {| Loader.anchor := lit "/";
                      Loader.names := [lit "repo"; lit "bindings"; lit "python";
                                       lit "pyjamaz"; lit "__init__.py"] |};
                 Loader.os_path_exists := fun _ => false;
                 Loader.path_exists := fun _ => false;
                 Loader.fspath := fun p => Loader.anchor p ++ join (lit "/") (Loader.names p);
                 Loader.CDLL := fun _ => true;
                 Loader.find_library := Some None |}
              eq_refl eq_refl (or_intror (conj eq_refl eq_refl)))
    as (a & b & c & H1 & H2 & _).
  exists a, b, c. split; [exact H1|]. now inversion H2.
Defined.

Section BuildThenLoad.

Variable tree : Type.
Variable exists_ : tree -> Loader.Path -> bool.
Variable build_py_run : tree -> option tree.
Variable mkdir : Loader.Path -> tree -> option tree.
Variable copy2 : Loader.Path -> Loader.Path -> tree -> option tree.
Hypothesis contract : Build.tree_contract exists_ mkdir copy2.

Lemma bundle_one_keeps name source target t t' n q :
  Build.bundle_one tree exists_ copy2 name source target t = (Some t', n) ->
  exists_ t q = true -> exists_ t' q = true.
Proof.
  unfold Build.bundle_one. destruct (exists_ t source).
  - intros H E. inversion H as [[H1 H2]].
    eapply (Build.copy2_keeps _ _ _ contract); eauto.
  - intros H. now inversion H.
Qed.

Lemma bundle_one_makes name source target t t' n :
  Build.bundle_one tree exists_ copy2 name source target t = (Some t', n) ->
  exists_ t source = true -> exists_ t' target = true.
Proof.
  unfold Build.bundle_one. intros H S. rewrite S in H.
  inversion H as [[H1 H2]].
  eapply (Build.copy2_makes _ _ _ contract); eauto.
Qed.

(** What the build bundles, the loader finds.  When [run] finishes on macOS
    or Linux and the library was in [zig-out/lib] once [build_py] had run,
    the library is in [<build_lib>/pyjamaz/native]; a loader whose package
    is [<build_lib>/pyjamaz], on the matching platform, seeing that tree
    and given no usable PYJAMAZ_LIB_PATH, returns that bundled library,
    whether or not libavif was found. *)
Theorem bundled_library_found (c : Build.command) (t t0 t' : tree)
    (notes : list Build.note) (w : Loader.world) (name : str) :
  build_py_run t = Some t0 ->
  Build.run tree exists_ build_py_run mkdir copy2 c t = (Some t', notes) ->
  (Build.system c = lit "Darwin" /\ Loader.platform w = lit "darwin" /\
   name = lit "libpyjamaz.dylib")
  \/ (Build.system c = lit "Linux" /\ Loader.platform w = lit "linux" /\
      name = lit "libpyjamaz.so") ->
  exists_ t0 (Loader.div (Build.zig_out_lib c) name) = true ->
  Loader.file w
  = Loader.div (Loader.div (Build.build_lib c) (lit "pyjamaz"))
               (lit "__init__.py") ->
  (forall q, Loader.path_exists w q = exists_ t' q) ->
  Loader.no_env_hit w ->
  exists_ t' (Loader.div (Build.native_dir c) name) = true /\
  fst (Loader._find_library w)
  = inr (Loader.fspath w (Loader.div (Build.native_dir c) name)).
Proof.
  intros Hb Hr Hp Hsrc Hf Hsee Henv.
  assert (Hbl : Loader.bundled_lib w = Loader.div (Build.native_dir c) name).
  { unfold Loader.bundled_lib, Loader.native_dir, Loader.package_dir,
      Build.native_dir. rewrite Hf, parent_div.
    destruct Hp as [(_ & P & ->)|(_ & P & ->)]; rewrite P; reflexivity. }
  assert (Hex : exists_ t' (Loader.div (Build.native_dir c) name) = true).
  { unfold Build.run in Hr. rewrite Hb in Hr.
    assert (Hl : exists la ls,
               Build.libraries c = Some (name, la, ls)).
    { unfold Build.libraries.
      destruct Hp as [(S & _ & ->)|(S & _ & ->)]; rewrite S; cbn; eauto. }
    destruct Hl as (la & ls & Hl). rewrite Hl in Hr.
    destruct (mkdir (Build.native_dir c) t0) as [t1|] eqn:Hm; [|discriminate].
    destruct (Build.bundle_one tree exists_ copy2 name
                (Loader.div (Build.zig_out_lib c) name)
                (Loader.div (Build.native_dir c) name) t1)
      as [[t2|] n1] eqn:H1; [|discriminate].
    destruct (Build.bundle_one tree exists_ copy2 la ls
                (Loader.div (Build.native_dir c) la) t2)
      as [r n2] eqn:H2.
    inversion Hr; subst r.
    apply (bundle_one_keeps _ _ _ _ _ _ _ H2).
    apply (bundle_one_makes _ _ _ _ _ _ H1).
    now apply (Build.mkdir_keeps _ _ _ contract) with (p := Build.native_dir c)
                                                      (t := t0). }
  split; [exact Hex|].
  assert (Hb' : fst (Loader.find_bundled w)
                = inr (Loader.fspath w (Loader.div (Build.native_dir c) name))).
  { apply find_bundled_hit. left. rewrite Hbl. split; [|reflexivity].
    now rewrite Hsee. }
  rewrite find_library_steps. destruct (Loader.environ w) as [q|] eqn:Eq.
  - now rewrite (Henv q Eq).
  - exact Hb'.
Qed.

End BuildThenLoad.

Lemma path_eqb_refl (p : Loader.Path) : Loader.path_eqb p p = true.
Proof.
  unfold Loader.path_eqb. rewrite str_eqb_refl.
  now destruct (list_eq_dec (list_eq_dec N.eq_dec) (Loader.names p)
                            (Loader.names p)).
Qed.

Lemma paths_contract :
  Build.tree_contract Build.paths_exists Build.paths_mkdir Build.paths_copy2.
Proof.
  split.
  - intros p t t' q H E. inversion H; subst. unfold Build.paths_exists in *.
    cbn. rewrite E. apply orb_true_r.
  - intros src dst t t' q H E. unfold Build.paths_copy2 in H.
    destruct (Build.paths_exists t src); [|discriminate].
    inversion H; subst. unfold Build.paths_exists in *.
    cbn. rewrite E. apply orb_true_r.
  - intros src dst t t' H. unfold Build.paths_copy2 in H.
    destruct (Build.paths_exists t src); [|discriminate].
    inversion H; subst. unfold Build.paths_exists. cbn.
    now rewrite path_eqb_refl.
Qed.

Lemma bundled_library_found_witness :
  fst (Loader._find_library BuildSample.loader)
  = inr (lit "build/pyjamaz/native/libpyjamaz.so").
Proof.
  refine (proj2 (bundled_library_found
                   Build.paths Build.paths_exists (fun t => Some t)
                   Build.paths_mkdir Build.paths_copy2 paths_contract
                   BuildSample.checkout BuildSample.built BuildSample.built
                   BuildSample.after_run
                   (snd (Build.run Build.paths Build.paths_exists
                                   (fun t => Some t) Build.paths_mkdir
                                   Build.paths_copy2 BuildSample.checkout
                                   BuildSample.built))
                   BuildSample.loader (lit "libpyjamaz.so")
                   eq_refl _ _ _ _ _ _)).
  - vm_compute. reflexivity.
  - right. repeat split; reflexivity.
  - reflexivity.
  - reflexivity.
  - intros q. reflexivity.
  - intros p H. discriminate H.
Defined.

(** ** The shape of every returned result *)

(** Whatever the engine does, a result that [optimize_image] returns holds
    output bytes only if [passed] is true, and its error message is None or
    a non-empty text, never the empty string. *)
Theorem returned_result_shape fs engine a s res s' :
  optimize_image fs engine a s = (Return res, s') ->
  (passed res = false -> output_buffer res = []) /\
  (output_buffer res <> [] -> passed res = true) /\
  error_message res <> Some [].
Proof.
  intros E. apply optimize_image_run in E.
  assert (K : (passed res = false -> output_buffer res = []) /\
              error_message res <> Some []).
  { inversion E as [| | |b evs o V R F Mr En
                   |b evs o r loads V R F Mr En L C]; subst.
    - split; [reflexivity|discriminate].
    - match goal with X : copy_out r = Return res |- _ =>
        apply copy_out_returned in X as (_ & _ & Hb & _ & He & _) end.
      split; [exact Hb|]. rewrite He. apply text_of_not_empty. }
  destruct K as [K1 K2]. split; [exact K1|]. split; [|exact K2].
  intros N. destruct (passed res); [reflexivity|]. now specialize (K1 eq_refl).
Qed.

Lemma returned_result_shape_witness :
  exists res,
    fst (optimize_image Sample.no_files Sample.failing_engine
                        Sample.call_max_bytes initial) = Return res /\
    (passed res = false -> output_buffer res = []) /\
    (output_buffer res <> [] -> passed res = true) /\
    error_message res <> Some [].
Proof.
  eexists. split; [vm_compute; reflexivity|].
  refine (returned_result_shape
            Sample.no_files Sample.failing_engine Sample.call_max_bytes initial
            _ (snd (optimize_image Sample.no_files Sample.failing_engine
                                   Sample.call_max_bytes initial)) _).
  vm_compute. reflexivity.
Defined.

(** ** The verification script *)

Lemma run_tests_results tests :
  fst (Script.run_tests tests)
  = map (fun t => (fst t, match snd t with Some b => b | None => false end))
        tests.
Proof.
  induction tests as [|[name o] rest IH]; [reflexivity|].
  cbn [Script.run_tests]. destruct (Script.run_tests rest) as [results out].
  cbn in IH. destruct o; cbn; now rewrite IH.
Qed.

Lemma filter_all {A} (f : A -> bool) (l : list A) :
  List.length (filter f l) = List.length l <-> forall x, In x l -> f x = true.
Proof.
  induction l as [|x l IH]; cbn.
  - split; [intros _ y []|reflexivity].
  - destruct (f x) eqn:Fx; cbn.
    + split.
      * intros H y [<-|I]; [exact Fx|]. apply IH; [lia|exact I].
      * intros H. f_equal. apply IH. intros y I. apply H. now right.
    + split.
      * intros H. pose proof (filter_length_le f l). lia.
      * intros H. specialize (H x (or_introl eq_refl)). congruence.
Qed.

(** The script exits with status 0 exactly when every test function
    returned True; a test that returned False or raised makes it exit with
    1, and no exception of a test gets out of [main]. *)
Theorem script_exit_status (tests : list (str * Script.outcome)) :
  (fst (Script.main tests) = 0 <->
   forall name o, In (name, o) tests -> o = Some true) /\
  (fst (Script.main tests) = 0 \/ fst (Script.main tests) = 1).
Proof.
  unfold Script.main.
  pose proof (run_tests_results tests) as R.
  destruct (Script.run_tests tests) as [results out]. cbn [fst] in R.
  assert (A : (forall x, In x results -> snd x = true) <->
              (forall name o, In (name, o) tests -> o = Some true)).
  { subst results. split.
    - intros H name o I.
      specialize (H (name, match o with Some b => b | None => false end)).
      cbn in H.
      assert (X : (match o with Some b => b | None => false end) = true).
      { apply H. apply in_map_iff. exists (name, o). split; [reflexivity|exact I]. }
      destruct o as [[|]|]; [reflexivity|discriminate X|discriminate X].
    - intros H [n b] I. apply in_map_iff in I.
      destruct I as ([n' o] & X & I). cbn in X. inversion X; subst.
      now rewrite (H _ _ I). }
  destruct (Nat.eqb (List.length (filter snd results)) (List.length results))
    eqn:E; cbn [fst].
  - split; [|now left]. split; [|reflexivity]. intros _.
    apply A. apply filter_all. now apply Nat.eqb_eq.
  - split; [|now right]. split; [discriminate|]. intros H. exfalso.
    apply Nat.eqb_neq in E. apply E. apply filter_all. now apply A.
Qed.
